(** * Exercise tracker: a shallow embedding of [src/index.js]

    The four Express routes of [index.js] are embedded as state-passing
    functions over a record store.  The store (Mongoose models [User] and
    [Exercise]) is an interface, [Store]; an in-memory instance, [MemStore],
    lets every handler be evaluated.  The pieces of the ECMAScript language
    the handlers rely on (truthiness, unary [+], [??], [||], [new Date],
    [Date.prototype.toDateString]) are embedded in the modules [JS] and
    [JSDate]. *)

From Stdlib Require Import ZArith QArith List String Ascii Bool Lia.
From Stdlib Require Import Decimal DecimalString DecimalPos DecimalN.
Import ListNotations.
Local Open Scope string_scope.
Local Open Scope Z_scope.

(** ** ECMAScript values and coercions *)

Module JS.

(** A Number: NaN, an infinity, or a finite binary64 value, held as the
    rational it denotes.  The sign of zero is not tracked. *)
Inductive number : Type :=
| NaN
| Infinity (negative : bool)
| Finite (q : Q).

(** The values a request parameter or an operand of the handlers can hold. *)
Inductive value : Type :=
| Undefined
| Null
| Num (n : number)
| Str (s : string).

(** [req.query.x], [req.body.x]: the key is absent or holds a string. *)
Definition param (p : option string) : value :=
  match p with
  | None => Undefined
  | Some s => Str s
  end.

(** The Number of an integer that binary64 holds exactly. *)
Definition of_Z (z : Z) : number := Finite (inject_Z z).

(** The Number value for a rational (ECMA-262, 6.1.6.1): the nearest
    binary64 value, ties to the even significand, and an infinity from
    2^1024 on.  With 2^k <= |q| < 2^(k+1), the unit in the last place is 2^e
    for e = k - 52, and 2^-1074 for the subnormal values. *)
Definition round_binary64 (q : Q) : number :=
  let a := Z.abs (Qnum q) in
  let b := Zpos (Qden q) in
  if a =? 0 then Finite (0 # 1)
  else
    let l := Z.log2 a - Z.log2 b in
    let below := if 0 <=? l then a <? b * 2 ^ l else a * 2 ^ (- l) <? b in
    let k := if below then l - 1 else l in
    let e := Z.max (k - 52) (-1074) in
    let num := if 0 <=? e then a else a * 2 ^ (- e) in
    let den := if 0 <=? e then b * 2 ^ e else b in
    let r := num mod den in
    let m :=
      if 2 * r <? den then num / den
      else if den <? 2 * r then num / den + 1
      else if Z.even (num / den) then num / den
      else num / den + 1 in
    if 1024 <=? Z.log2 m + e then Infinity (Qnum q <? 0)
    else
      let v := if 0 <=? e then inject_Z (m * 2 ^ e)
               else m # Z.to_pos (2 ^ (- e)) in
      Finite (Qred (if Qnum q <? 0 then Qopp v else v)).

Definition is_zero (n : number) : bool :=
  match n with
  | Finite q => Qnum q =? 0
  | _ => false
  end.

(** *** StringToNumber (ECMA-262, 7.1.4.1.1)

    A string holds the UTF-8 encoding of the text, so a white-space
    character (StrWhiteSpaceChar) is one byte (TAB, LF, VT, FF, CR, the
    space), two (U+00A0) or three (U+1680, U+2000 to U+200A, U+2028, U+2029,
    U+202F, U+205F, U+3000, U+FEFF). *)

Definition is_white (c : ascii) : bool :=
  let n := nat_of_ascii c in
  ((9 <=? n) && (n <=? 13))%nat || (n =? 32)%nat.

Definition is_white2 (a b : ascii) : bool :=
  ((nat_of_ascii a =? 194) && (nat_of_ascii b =? 160))%nat.

Definition is_white3 (a b c : ascii) : bool :=
  let x := nat_of_ascii a in
  let y := nat_of_ascii b in
  let z := nat_of_ascii c in
  ((x =? 225) && (y =? 154) && (z =? 128)
   || (x =? 226) && (y =? 128)
      && ((128 <=? z) && (z <=? 138) || (z =? 168) || (z =? 169) || (z =? 175))
   || (x =? 226) && (y =? 129) && (z =? 159)
   || (x =? 227) && (y =? 128) && (z =? 128)
   || (x =? 239) && (y =? 187) && (z =? 191))%nat.

(** What follows the white-space character a string starts with, if it
    starts with one. *)
Definition white_head (l : list ascii) : option (list ascii) :=
  match l with
  | a :: r1 =>
      if is_white a then Some r1
      else
        match r1 with
        | b :: r2 =>
            if is_white2 a b then Some r2
            else
              match r2 with
              | c :: r3 => if is_white3 a b c then Some r3 else None
              | [] => None
              end
        | [] => None
        end
  | [] => None
  end.

(** The same at the end of a string, read on the reversed string. *)
Definition white_last (l : list ascii) : option (list ascii) :=
  match l with
  | c :: r1 =>
      if is_white c then Some r1
      else
        match r1 with
        | b :: r2 =>
            if is_white2 b c then Some r2
            else
              match r2 with
              | a :: r3 => if is_white3 a b c then Some r3 else None
              | [] => None
              end
        | [] => None
        end
  | [] => None
  end.

Fixpoint drop_white (step : list ascii -> option (list ascii)) (fuel : nat)
    (l : list ascii) : list ascii :=
  match fuel with
  | O => l
  | S k =>
      match step l with
      | Some r => drop_white step k r
      | None => l
      end
  end.

Definition trim (l : list ascii) : list ascii :=
  let l := drop_white white_head (List.length l) l in
  List.rev (drop_white white_last (List.length l) (List.rev l)).

(** The value of a digit in a radix up to 16, if it is one. *)
Definition digit_value (radix : Z) (c : ascii) : option Z :=
  let n := Z.of_nat (nat_of_ascii c) in
  let v := if (48 <=? n) && (n <=? 57) then n - 48
           else if (97 <=? n) && (n <=? 102) then n - 87
           else if (65 <=? n) && (n <=? 70) then n - 55
           else 16 in
  if v <? radix then Some v else None.

(** The longest prefix of digits: its value, its length and what follows. *)
Fixpoint digits_from (radix acc : Z) (len : nat) (l : list ascii)
  : Z * nat * list ascii :=
  match l with
  | c :: r =>
      match digit_value radix c with
      | Some v => digits_from radix (acc * radix + v) (S len) r
      | None => (acc, len, l)
      end
  | [] => (acc, len, [])
  end.

Definition digits (radix : Z) (l : list ascii) : Z * nat * list ascii :=
  digits_from radix 0 O l.

(** NonDecimalIntegerLiteral after its prefix: digits, at least one, only. *)
Definition non_decimal (radix : Z) (l : list ascii) : number :=
  match digits radix l with
  | (v, S _, []) => round_binary64 (inject_Z v)
  | _ => NaN
  end.

(** ExponentPart, when there is one: [e] or [E], a sign, digits. *)
Definition exponent_part (l : list ascii) : option Z :=
  match l with
  | [] => Some 0
  | c :: r =>
      if (Ascii.eqb c "e" || Ascii.eqb c "E")%bool then
        let '(neg, r') :=
          match r with
          | "+"%char :: r' => (false, r')
          | "-"%char :: r' => (true, r')
          | _ => (false, r)
          end in
        match digits 10 r' with
        | (v, S _, []) => Some (if neg then - v else v)
        | _ => None
        end
      else None
  end.

Definition pow10 (e : Z) : Q :=
  if 0 <=? e then inject_Z (10 ^ e) else 1 # Z.to_pos (10 ^ (- e)).

(** StrUnsignedDecimalLiteral other than [Infinity]. *)
Definition unsigned_decimal (neg : bool) (l : list ascii) : number :=
  let '(ip, ilen, r1) := digits 10 l in
  let '(fp, flen, r2) :=
    match r1 with
    | "."%char :: r => digits_from 10 ip O r
    | _ => (ip, O, r1)
    end in
  match (ilen + flen)%nat with
  | O => NaN
  | S _ =>
      match exponent_part r2 with
      | Some e =>
          let m := if neg then - fp else fp in
          round_binary64 (inject_Z m * pow10 (e - Z.of_nat flen))
      | None => NaN
      end
  end.

Definition str_decimal (l : list ascii) : number :=
  let '(neg, r) :=
    match l with
    | "+"%char :: r => (false, r)
    | "-"%char :: r => (true, r)
    | _ => (false, l)
    end in
  if String.eqb (string_of_list_ascii r) "Infinity" then Infinity neg
  else unsigned_decimal neg r.

Definition StringToNumber (s : string) : number :=
  match trim (list_ascii_of_string s) with
  | [] => of_Z 0
  | "0"%char :: p :: r =>
      if (Ascii.eqb p "x" || Ascii.eqb p "X")%bool then non_decimal 16 r
      else if (Ascii.eqb p "o" || Ascii.eqb p "O")%bool then non_decimal 8 r
      else if (Ascii.eqb p "b" || Ascii.eqb p "B")%bool then non_decimal 2 r
      else str_decimal ("0"%char :: p :: r)
  | l => str_decimal l
  end.

(** *** ToNumber, ToBoolean and the operators of the handlers *)

Definition ToNumber (v : value) : number :=
  match v with
  | Undefined => NaN
  | Null => of_Z 0
  | Num n => n
  | Str s => StringToNumber s
  end.

Definition ToBoolean (v : value) : bool :=
  match v with
  | Undefined | Null => false
  | Num NaN => false
  | Num n => negb (is_zero n)
  | Str s => negb (String.eqb s EmptyString)
  end.

(** Every object is truthy: a document, an array (the empty one too). *)
Definition ToBoolean_object {A : Type} (o : A) : bool := true.

(** A document or [null], as [findById] resolves to. *)
Definition ToBoolean_nullable {A : Type} (o : option A) : bool :=
  match o with
  | Some d => ToBoolean_object d
  | None => false
  end.

(** [+v] *)
Definition unary_plus (v : value) : value := Num (ToNumber v).

(** [a ?? b] *)
Definition nullish (a b : value) : value :=
  match a with
  | Undefined | Null => b
  | _ => a
  end.

(** [a || b] *)
Definition logical_or (a b : value) : value :=
  if ToBoolean a then a else b.

End JS.

(** ** ECMAScript dates (ECMA-262, 21.4.1) *)

Module JSDate.

(** The time value of a Date object: milliseconds since the epoch, or NaN
    (an invalid Date). *)
Inductive Date : Type :=
| Invalid
| TimeValue (t : Z).

Definition msPerDay : Z := 86400000.

Definition Day (t : Z) : Z := t / msPerDay.

Definition DaysInYear (y : Z) : Z :=
  if negb (y mod 4 =? 0) then 365
  else if negb (y mod 100 =? 0) then 366
  else if negb (y mod 400 =? 0) then 365
  else 366.

Definition DayFromYear (y : Z) : Z :=
  365 * (y - 1970) + (y - 1969) / 4 - (y - 1901) / 100 + (y - 1601) / 400.

Definition TimeFromYear (y : Z) : Z := msPerDay * DayFromYear y.

(** The largest [y] in [lo, hi] with [TimeFromYear y <= t], by bisection
    ([lo] when there is none). *)
Fixpoint year_search (fuel : nat) (lo hi t : Z) : Z :=
  match fuel with
  | O => lo
  | S k =>
      if lo <? hi then
        let mid := (lo + hi + 1) / 2 in
        if TimeFromYear mid <=? t then year_search k mid hi t
        else year_search k lo (mid - 1) t
      else lo
  end.

(** The years a time value can fall in: 8.64e15 ms either side of 1970. *)
Definition min_year : Z := -271821.
Definition max_year : Z := 275760.

Definition YearFromTime (t : Z) : Z := year_search 20 min_year max_year t.

Definition InLeapYear (t : Z) : Z :=
  if DaysInYear (YearFromTime t) =? 366 then 1 else 0.

Definition DayWithinYear (t : Z) : Z := Day t - DayFromYear (YearFromTime t).

Definition MonthFromTime (t : Z) : Z :=
  let d := DayWithinYear t in
  let leap := InLeapYear t in
  if d <? 31 then 0
  else if d <? 59 + leap then 1
  else if d <? 90 + leap then 2
  else if d <? 120 + leap then 3
  else if d <? 151 + leap then 4
  else if d <? 181 + leap then 5
  else if d <? 212 + leap then 6
  else if d <? 243 + leap then 7
  else if d <? 273 + leap then 8
  else if d <? 304 + leap then 9
  else if d <? 334 + leap then 10
  else 11.

Definition DateFromTime (t : Z) : Z :=
  let d := DayWithinYear t in
  let leap := InLeapYear t in
  match MonthFromTime t with
  | 0 => d + 1
  | 1 => d - 30
  | 2 => d - 58 - leap
  | 3 => d - 89 - leap
  | 4 => d - 119 - leap
  | 5 => d - 150 - leap
  | 6 => d - 180 - leap
  | 7 => d - 211 - leap
  | 8 => d - 242 - leap
  | 9 => d - 272 - leap
  | 10 => d - 303 - leap
  | _ => d - 333 - leap
  end.

Definition WeekDay (t : Z) : Z := (Day t + 4) mod 7.

Definition weekday_name (d : Z) : string :=
  match d with
  | 0 => "Sun" | 1 => "Mon" | 2 => "Tue" | 3 => "Wed"
  | 4 => "Thu" | 5 => "Fri" | _ => "Sat"
  end.

Definition month_name (m : Z) : string :=
  match m with
  | 0 => "Jan" | 1 => "Feb" | 2 => "Mar" | 3 => "Apr" | 4 => "May"
  | 5 => "Jun" | 6 => "Jul" | 7 => "Aug" | 8 => "Sep" | 9 => "Oct"
  | 10 => "Nov" | _ => "Dec"
  end.

Fixpoint zeros (n : nat) : string :=
  match n with
  | O => EmptyString
  | S k => String "0" (zeros k)
  end.

(** ToZeroPaddedDecimalString, of a number that is not negative. *)
Definition ToZeroPaddedDecimalString (n : Z) (minLength : nat) : string :=
  let s := NilZero.string_of_uint (N.to_uint (Z.to_N n)) in
  zeros (minLength - String.length s) ++ s.

(** DateString (21.4.4.41.2), of a local time. *)
Definition DateString (t : Z) : string :=
  let yv := YearFromTime t in
  weekday_name (WeekDay t) ++ " " ++ month_name (MonthFromTime t) ++ " "
  ++ ToZeroPaddedDecimalString (DateFromTime t) 2 ++ " "
  ++ (if 0 <=? yv then EmptyString else "-")
  ++ ToZeroPaddedDecimalString (Z.abs yv) 4.

(** What the host decides: how [Date.parse] reads a string (the standard
    fixes it on the ISO format only), and the offset of local time from UTC
    at a given UTC time, in milliseconds. *)
Record Host : Type := {
  Date_parse : string -> Date;
  LocalTZA : Z -> Z
}.

Section WithHost.
Variable host : Host.

Definition LocalTime (t : Z) : Z := t + LocalTZA host t.

(** [d.toDateString()] *)
Definition toDateString (d : Date) : string :=
  match d with
  | Invalid => "Invalid Date"
  | TimeValue tv => DateString (LocalTime tv)
  end.

(** TimeClip of a Number. *)
Definition TimeClip (n : JS.number) : Date :=
  match n with
  | JS.Finite q =>
      let t := Z.quot (Qnum q) (Zpos (Qden q)) in
      if Z.abs t <=? 8640000000000000 then TimeValue t else Invalid
  | _ => Invalid
  end.

(** [new Date(v)] *)
Definition new_Date_of (v : JS.value) : Date :=
  match v with
  | JS.Str s => Date_parse host s
  | _ => TimeClip (JS.ToNumber v)
  end.

(** [new Date(d)] for a Date [d]: a copy, with the same time value. *)
Definition new_Date_copy (d : Date) : Date := d.

(** [new Date()], at the clock reading [now]. *)
Definition new_Date_now (now : Z) : Date := TimeValue now.

End WithHost.

(** A host for evaluation: UTC as local time, and a [Date.parse] that reads
    the ISO date-only form [YYYY-MM-DD] (midnight UTC) and nothing else. *)
Definition days_before_month (y m : Z) : Z :=
  let leap := if DaysInYear y =? 366 then 1 else 0 in
  match m with
  | 1 => 0 | 2 => 31 | 3 => 59 + leap | 4 => 90 + leap | 5 => 120 + leap
  | 6 => 151 + leap | 7 => 181 + leap | 8 => 212 + leap | 9 => 243 + leap
  | 10 => 273 + leap | 11 => 304 + leap | _ => 334 + leap
  end.

Definition days_in_month (y m : Z) : Z :=
  if m =? 12 then 31 else days_before_month y (m + 1) - days_before_month y m.

Definition all_digits (l : list ascii) : option Z :=
  match JS.digits 10 l with
  | (v, _, []) => Some v
  | _ => None
  end.

Definition parse_iso_date (s : string) : Date :=
  match list_ascii_of_string s with
  | [y1; y2; y3; y4; "-"%char; m1; m2; "-"%char; d1; d2] =>
      match all_digits [y1; y2; y3; y4], all_digits [m1; m2], all_digits [d1; d2] with
      | Some y, Some m, Some d =>
          if (1 <=? m) && (m <=? 12) && (1 <=? d) && (d <=? days_in_month y m)
          then TimeValue (msPerDay * (DayFromYear y + days_before_month y m + d - 1))
          else Invalid
      | _, _, _ => Invalid
      end
  | _ => Invalid
  end.

Definition utc_host : Host :=
  {| Date_parse := parse_iso_date; LocalTZA := fun _ => 0 |}.

End JSDate.

(** ** Documents, queries and responses *)

Definition error : Type := string.

(** What awaiting a store operation gives: the value it resolves to, or the
    error it rejects with. *)
Inductive result (A : Type) : Type :=
| Ok (a : A)
| Err (e : error).
Arguments Ok {A} a.
Arguments Err {A} e.

(** [UserSchema]: a document of the [User] model. *)
Module User.
Record t : Type := {
  _id : string;
  username : option string
}.
End User.

(** [ExerciseSchema]: a document of the [Exercise] model, and the fields a
    handler gives [new Exercise({...})]. *)
Module Exercise.
Record t : Type := {
  _id : string;
  userId : string;
  description : option string;
  duration : option JS.number;
  date : JSDate.Date
}.

Record fields : Type := {
  new_userId : string;
  new_description : option string;
  new_duration : option string;
  new_date : JSDate.Date
}.
End Exercise.

(** The filter object of [Exercise.find]: [{userId, date: {$gte, $lte}}],
    every key of [date], and [date] itself, present or not. *)
Module Query.
Record dateObj : Type := {
  gte : option JSDate.Date;
  lte : option JSDate.Date
}.

Record filter : Type := {
  userId : string;
  date : option dateObj
}.
End Query.

(** The bodies the handlers answer with. *)
Module Reply.
Record exercise : Type := {
  _id : string;
  username : option string;
  description : option string;
  duration : option JS.number;
  date : string
}.

Record entry : Type := {
  entry_description : option string;
  entry_duration : option JS.number;
  entry_date : string
}.

Record logs : Type := {
  logs_username : option string;
  count : nat;
  logs_id : string;
  log : list entry
}.

Inductive json : Type :=
| OfUser (u : User.t)
| OfUsers (us : list User.t)
| OfExercise (e : exercise)
| OfLogs (l : logs).
End Reply.

(** How the handling of one request ends: a text body ([rsp.send]), a JSON
    body ([rsp.json]), no response at all but a line on the console, or an
    exception leaving the handler (its promise rejects). *)
Inductive outcome : Type :=
| Send (text : string)
| Json (body : Reply.json)
| Logged (err : error)
| Rejected (err : error).

(** ** The record store *)

(** The operations of the two Mongoose models the handlers call.  Reading
    leaves the store as it is; saving gives the stored document and the new
    store.  [User_find] is [User.find({}).select("_id username")], which
    resolves to an array, empty when no document matches, and never to
    [null]; [User_findById] resolves to a document or to [null];
    [Exercise_find f n] is [Exercise.find(f).limit(n)]. *)
Class Store (db : Type) : Type := {
  User_save : db -> option string -> result (User.t * db);
  User_find : db -> result (list User.t);
  User_findById : db -> string -> result (option User.t);
  Exercise_save : db -> Exercise.fields -> result (Exercise.t * db);
  Exercise_find : db -> Query.filter -> JS.value -> result (list Exercise.t)
}.

(** ** Asynchronous handler bodies *)

(** A computation over the store that returns or throws. *)
Definition M (db A : Type) : Type := db -> result A * db.

Definition ret {db A : Type} (a : A) : M db A := fun s => (Ok a, s).

Definition throw {db A : Type} (e : error) : M db A := fun s => (Err e, s).

Definition bind {db A B : Type} (m : M db A) (k : A -> M db B) : M db B :=
  fun s =>
    match m s with
    | (Ok a, s') => k a s'
    | (Err e, s') => (Err e, s')
    end.

(** [try { body } catch (err) { handler }] *)
Definition try_catch {db A : Type} (body : M db A) (handler : error -> M db A)
  : M db A :=
  fun s =>
    match body s with
    | (Ok a, s') => (Ok a, s')
    | (Err e, s') => handler e s'
    end.

(** [await] of a read and of a write. *)
Definition await_read {db A : Type} (op : db -> result A) : M db A :=
  fun s => (op s, s).

Definition await_write {db A : Type} (op : db -> result (A * db)) : M db A :=
  fun s =>
    match op s with
    | Ok (a, s') => (Ok a, s')
    | Err e => (Err e, s)
    end.

(** Reading a property of [o], which throws when [o] is [null]. *)
Definition property_of {db A : Type} (o : option A) : M db A :=
  match o with
  | Some d => ret d
  | None => throw "TypeError: Cannot read properties of null"
  end.

(** An [async] route callback: what it returns is the request's outcome, and
    what it throws rejects its promise. *)
Definition async {db : Type} (body : M db outcome) (s : db) : outcome * db :=
  match body s with
  | (Ok o, s') => (o, s')
  | (Err e, s') => (Rejected e, s')
  end.

Declare Scope async_scope.
Delimit Scope async_scope with async.
Notation "x <- m ;; k" := (bind m (fun x => k))
  (at level 100, m at next level, right associativity) : async_scope.

(** ** The routes of [index.js] *)

Section Routes.
Context {db : Type} {store : Store db}.
Variable host : JSDate.Host.
Local Open Scope async_scope.

(** [app.post('/api/users', ...)] *)
Definition post_api_users (username : option string) : db -> outcome * db :=
  async (
    try_catch
      (user <- await_write (fun s => User_save s username) ;;
       ret (Json (Reply.OfUser user)))
      (fun err => ret (Logged err))).

(** [app.get('/api/users', ...)] *)
Definition get_api_users : db -> outcome * db :=
  async (
    users <- await_read User_find ;;
    if negb (JS.ToBoolean_object users) then ret (Send "no users")
    else ret (Json (Reply.OfUsers users))).

(** The [date] given to [new Exercise]: [date ? new Date(date) : new Date()]. *)
Definition exercise_date (date : option string) (now : Z) : JSDate.Date :=
  if JS.ToBoolean (JS.param date)
  then JSDate.new_Date_of host (JS.param date)
  else JSDate.new_Date_now now.

(** [exerciseObj], the document built for a found [user]. *)
Definition exerciseObj (user : User.t) (description duration date : option string)
    (now : Z) : Exercise.fields :=
  {| Exercise.new_userId := User._id user;
     Exercise.new_description := description;
     Exercise.new_duration := duration;
     Exercise.new_date := exercise_date date now |}.

(** [app.post('/api/users/:_id/exercises', ...)], handled when the clock
    reads [now]. *)
Definition post_api_users_exercises (id : string)
    (description duration date : option string) (now : Z)
  : db -> outcome * db :=
  async (
    try_catch
      (user <- await_read (fun s => User_findById s id) ;;
       if negb (JS.ToBoolean_nullable user) then ret (Send "could not find user")
       else
         user <- property_of user ;;
         exercise <- await_write (fun s =>
           Exercise_save s (exerciseObj user description duration date now)) ;;
         ret (Json (Reply.OfExercise
           {| Reply._id := User._id user;
              Reply.username := User.username user;
              Reply.description := Exercise.description exercise;
              Reply.duration := Exercise.duration exercise;
              Reply.date :=
                JSDate.toDateString host
                  (JSDate.new_Date_copy (Exercise.date exercise)) |})))
      (fun err => ret (Send "there was an error"))).

(** [dateObj], after the two assignments guarded by [from] and [to]. *)
Definition dateObj (from to : option string) : Query.dateObj :=
  let dateObj := {| Query.gte := None; Query.lte := None |} in
  let dateObj :=
    if JS.ToBoolean (JS.param from)
    then {| Query.gte := Some (JSDate.new_Date_of host (JS.param from));
            Query.lte := Query.lte dateObj |}
    else dateObj in
  if JS.ToBoolean (JS.param to)
  then {| Query.gte := Query.gte dateObj;
          Query.lte := Some (JSDate.new_Date_of host (JS.param to)) |}
  else dateObj.

(** [filter], after [if (from || to) filter.date = dateObj]. *)
Definition filter (id : string) (from to : option string) : Query.filter :=
  let filter := {| Query.userId := id; Query.date := None |} in
  if JS.ToBoolean (JS.logical_or (JS.param from) (JS.param to))
  then {| Query.userId := Query.userId filter;
          Query.date := Some (dateObj from to) |}
  else filter.

(** The argument of [.limit(...)]: [+limit ?? 500]; the unary [+] binds
    tighter than [??]. *)
Definition limit_arg (limit : option string) : JS.value :=
  JS.nullish (JS.unary_plus (JS.param limit)) (JS.Num (JS.of_Z 500)).

(** One element of [log]. *)
Definition log_entry (i : Exercise.t) : Reply.entry :=
  {| Reply.entry_description := Exercise.description i;
     Reply.entry_duration := Exercise.duration i;
     Reply.entry_date := JSDate.toDateString host (Exercise.date i) |}.

(** [app.get('/api/users/:_id/logs', ...)] *)
Definition get_api_users_logs (id : string) (from to limit : option string)
  : db -> outcome * db :=
  async (
    user <- await_read (fun s => User_findById s id) ;;
    if negb (JS.ToBoolean_nullable user) then ret (Send "could not find user")
    else
      exercises <- await_read (fun s =>
        Exercise_find s (filter id from to) (limit_arg limit)) ;;
      let log := map log_entry exercises in
      user <- property_of user ;;
      ret (Json (Reply.OfLogs
        {| Reply.logs_username := User.username user;
           Reply.count := List.length exercises;
           Reply.logs_id := User._id user;
           Reply.log := log |}))).

End Routes.

(** ** An in-memory record store

    A stand-in for the database behind Mongoose, to run the routes on: two
    lists in insertion order, a counter for fresh ids and the state of the
    connection; every operation rejects while the connection is down. *)

Module MemStore.

Record db : Type := {
  users : list User.t;
  exercises : list Exercise.t;
  next_id : nat;
  connected : bool
}.

Definition empty : db :=
  {| users := []; exercises := []; next_id := O; connected := true |}.

Definition disconnect (s : db) : db :=
  {| users := users s; exercises := exercises s; next_id := next_id s;
     connected := false |}.

Definition network_error : error := "MongoNetworkError".

Definition fresh_id (n : nat) : string :=
  "id" ++ NilZero.string_of_uint (Nat.to_uint n).

Definition save_user (s : db) (username : option string) : result (User.t * db) :=
  if connected s then
    let u := {| User._id := fresh_id (next_id s); User.username := username |} in
    Ok (u, {| users := users s ++ [u]; exercises := exercises s;
              next_id := S (next_id s); connected := true |})
  else Err network_error.

Definition find_users (s : db) : result (list User.t) :=
  if connected s then Ok (users s) else Err network_error.

Definition find_user_by_id (s : db) (id : string) : result (option User.t) :=
  if connected s
  then Ok (List.find (fun u => String.eqb (User._id u) id) (users s))
  else Err network_error.

Definition save_exercise (s : db) (f : Exercise.fields)
  : result (Exercise.t * db) :=
  if connected s then
    let e := {| Exercise._id := fresh_id (next_id s);
                Exercise.userId := Exercise.new_userId f;
                Exercise.description := Exercise.new_description f;
                Exercise.duration :=
                  option_map JS.StringToNumber (Exercise.new_duration f);
                Exercise.date := Exercise.new_date f |} in
    Ok (e, {| users := users s; exercises := exercises s ++ [e];
              next_id := S (next_id s); connected := true |})
  else Err network_error.

(** [a <= b] on dates; no comparison with an invalid date holds. *)
Definition date_le (a b : JSDate.Date) : bool :=
  match a, b with
  | JSDate.TimeValue x, JSDate.TimeValue y => x <=? y
  | _, _ => false
  end.

(** Whether a document passes a filter: [$gte] and [$lte] are inclusive. *)
Definition matches (f : Query.filter) (e : Exercise.t) : bool :=
  String.eqb (Exercise.userId e) (Query.userId f)
  && match Query.date f with
     | None => true
     | Some d =>
         match Query.gte d with
         | None => true
         | Some lo => date_le lo (Exercise.date e)
         end
         && match Query.lte d with
            | None => true
            | Some hi => date_le (Exercise.date e) hi
            end
     end.

(** [.limit(n)]: the first [|n|] documents for a number [n] whose integer
    part is not zero, and every document for any other [n]. *)
Definition limit {A : Type} (n : JS.value) (l : list A) : list A :=
  match n with
  | JS.Num (JS.Finite q) =>
      let k := Z.abs (Z.quot (Qnum q) (Zpos (Qden q))) in
      if k =? 0 then l else firstn (Z.to_nat k) l
  | _ => l
  end.

Definition find_exercises (s : db) (f : Query.filter) (n : JS.value)
  : result (list Exercise.t) :=
  if connected s then Ok (limit n (List.filter (matches f) (exercises s)))
  else Err network_error.

#[global] Instance store : Store db := {|
  User_save := save_user;
  User_find := find_users;
  User_findById := find_user_by_id;
  Exercise_save := save_exercise;
  Exercise_find := find_exercises
|}.

End MemStore.

(** ** The specification's reading of the two exercise routes

    Definitions that follow the words of the specification, to be compared
    with the ones above, which follow the code. *)

Module Spec.

(** "the provided limit coerced to a number if present and
    non-zero/non-NaN, otherwise a default cap of 500" *)
Definition cap (limit : option string) : JS.value :=
  match limit with
  | Some s =>
      match JS.StringToNumber s with
      | JS.NaN => JS.Num (JS.of_Z 500)
      | n => if JS.is_zero n then JS.Num (JS.of_Z 500) else JS.Num n
      end
  | None => JS.Num (JS.of_Z 500)
  end.

(** "date defaulting to now when the caller passes no date, otherwise
    parsing the caller-supplied date text into a calendar date" *)
Definition exercise_date (host : JSDate.Host) (date : option string) (now : Z)
  : JSDate.Date :=
  match date with
  | None => JSDate.TimeValue now
  | Some text => JSDate.Date_parse host text
  end.

(** The lower and the upper bound a filter puts on [date], if any. *)
Definition lower_bound (f : Query.filter) : option JSDate.Date :=
  match Query.date f with
  | Some d => Query.gte d
  | None => None
  end.

Definition upper_bound (f : Query.filter) : option JSDate.Date :=
  match Query.date f with
  | Some d => Query.lte d
  | None => None
  end.

Definition present (p : option string) : bool :=
  match p with
  | Some _ => true
  | None => false
  end.

(** "always constrains userId equal to the given id.  If from is present,
    adds a lower bound on date.  If to is present, adds an upper bound on
    date.  If neither is present, no date filter is applied." *)
Definition filter_as_stated (id : string) (from to : option string)
    (f : Query.filter) : Prop :=
  Query.userId f = id
  /\ (present from = true -> lower_bound f <> None)
  /\ (present to = true -> upper_bound f <> None)
  /\ (present from = false -> present to = false -> Query.date f = None).

End Spec.

(** A parameter that is present and is not the empty string. *)
Definition non_empty (p : option string) : bool :=
  match p with
  | Some (String _ _) => true
  | _ => false
  end.

(** ** Sample stores *)

Definition alice : User.t :=
  {| User._id := "id0"; User.username := Some "alice" |}.

(** One user and no exercise. *)
Definition db_alice : MemStore.db :=
  {| MemStore.users := [alice]; MemStore.exercises := [];
     MemStore.next_id := 1%nat; MemStore.connected := true |}.

(** Noon and the last millisecond of 1 January 2020, UTC. *)
Definition noon_2020_01_01 : Z := 1577880000000.
Definition end_of_2020_01_01 : Z := 1577923199999.

Definition swim : Exercise.t :=
  {| Exercise._id := "id1"; Exercise.userId := "id0";
     Exercise.description := Some "swim";
     Exercise.duration := Some (JS.of_Z 20);
     Exercise.date := JSDate.TimeValue noon_2020_01_01 |}.

Definition run : Exercise.t :=
  {| Exercise._id := "id2"; Exercise.userId := "id0";
     Exercise.description := Some "run";
     Exercise.duration := Some (JS.of_Z 30);
     Exercise.date := JSDate.TimeValue end_of_2020_01_01 |}.

(** One user and two exercises of hers. *)
Definition db_two : MemStore.db :=
  {| MemStore.users := [alice]; MemStore.exercises := [swim; run];
     MemStore.next_id := 3%nat; MemStore.connected := true |}.

(** ** The cast of the id

    Mongoose casts the id given to [findById] to an ObjectId before it
    looks anything up, and the lookup rejects with a CastError when the id
    is not one.  An ObjectId is written as 24 hexadecimal digits.  The store
    below is the in-memory one with that cast in front of its lookup. *)

Module CastStore.

Definition is_hex (c : ascii) : bool :=
  match JS.digit_value 16 c with
  | Some _ => true
  | None => false
  end.

Definition is_ObjectId (id : string) : bool :=
  (String.length id =? 24)%nat && forallb is_hex (list_ascii_of_string id).

Definition cast_error : error := "CastError".

Definition find_user_by_id (s : MemStore.db) (id : string)
  : result (option User.t) :=
  if is_ObjectId id then MemStore.find_user_by_id s id else Err cast_error.

Definition store : Store MemStore.db := {|
  User_save := MemStore.save_user;
  User_find := MemStore.find_users;
  User_findById := find_user_by_id;
  Exercise_save := MemStore.save_exercise;
  Exercise_find := MemStore.find_exercises
|}.

End CastStore.

(** * Properties *)

(** ** Evaluation of the embedded language on samples *)

Example StringToNumber_samples :
  map JS.StringToNumber
    [EmptyString; "  "; " 12 "; "abc"; "1e3"; "0x1F"; "-5"; "1.5"; "."; "5."; ".5";
     "+Infinity"; "5px"; "- 5"; "0x"; "-0x10"; "0"; "0.0"; "0.25e1"; "0b101"; "1e"]
  = [JS.of_Z 0; JS.of_Z 0; JS.of_Z 12; JS.NaN; JS.of_Z 1000; JS.of_Z 31;
     JS.of_Z (-5); JS.Finite (3 # 2); JS.NaN; JS.of_Z 5; JS.Finite (1 # 2);
     JS.Infinity false; JS.NaN; JS.NaN; JS.NaN; JS.NaN; JS.of_Z 0; JS.of_Z 0;
     JS.Finite (5 # 2); JS.of_Z 5; JS.NaN].
Proof. vm_compute. reflexivity. Qed.

(** Rounding to binary64: the first integer that is not a Number, a
    decimal fraction, the overflow to an infinity, the underflow to zero,
    the least and the greatest finite values and the ties next to them. *)
Example StringToNumber_rounds :
  map JS.StringToNumber
    ["9007199254740993"; "9007199254740995"; "0.1"; "1e400"; "-1e400";
     "1e-400"; "5e-324"; "2e-324"; "3e-324"; "1.7976931348623157e308";
     "1.7976931348623158e308"; "1.7976931348623159e308"; "0x20000000000001"]
  = [JS.of_Z 9007199254740992; JS.of_Z 9007199254740996;
     JS.Finite (3602879701896397 # 36028797018963968);
     JS.Infinity false; JS.Infinity true; JS.of_Z 0;
     JS.Finite (1 # Z.to_pos (2 ^ 1074)); JS.of_Z 0;
     JS.Finite (1 # Z.to_pos (2 ^ 1074));
     JS.of_Z ((2 ^ 53 - 1) * 2 ^ 971); JS.of_Z ((2 ^ 53 - 1) * 2 ^ 971);
     JS.Infinity false; JS.of_Z 9007199254740992].
Proof. vm_compute. reflexivity. Qed.

(** White space of one, two and three bytes around a number: a tab, U+00A0,
    U+FEFF and U+2028. *)
Example StringToNumber_trims :
  map JS.StringToNumber
    [String (ascii_of_nat 9) "1";
     String (ascii_of_nat 194) (String (ascii_of_nat 160) "1");
     "1" ++ String (ascii_of_nat 239) (String (ascii_of_nat 187)
              (String (ascii_of_nat 191) EmptyString));
     String (ascii_of_nat 226) (String (ascii_of_nat 128)
       (String (ascii_of_nat 168) "1 "));
     String (ascii_of_nat 194) "1"]
  = [JS.of_Z 1; JS.of_Z 1; JS.of_Z 1; JS.of_Z 1; JS.NaN].
Proof. vm_compute. reflexivity. Qed.

Example toDateString_samples :
  map (fun t => JSDate.toDateString JSDate.utc_host (JSDate.TimeValue t))
    [0; -1; 951782400000; 951868799999; 1709164800000; 1735689599999;
     1735689600000; -62167305600000]
  = ["Thu Jan 01 1970"; "Wed Dec 31 1969"; "Tue Feb 29 2000"; "Tue Feb 29 2000";
     "Thu Feb 29 2024"; "Tue Dec 31 2024"; "Wed Jan 01 2025"; "Fri Dec 31 -0001"].
Proof. vm_compute. reflexivity. Qed.

Example parse_iso_date_samples :
  map JSDate.parse_iso_date
    ["2020-01-01"; "1970-01-01"; "2020-02-30"; "tomorrow"; EmptyString]
  = [JSDate.TimeValue 1577836800000; JSDate.TimeValue 0; JSDate.Invalid;
     JSDate.Invalid; JSDate.Invalid].
Proof. vm_compute. reflexivity. Qed.

(** The requests of the specification's test on date ranges: two exercises
    appended, one dated 2020-01-01 and one undated at a later clock reading;
    the range 2020-01-01..2020-01-01 gives back the dated one only. *)
Example logs_of_a_day :
  let s1 := snd (post_api_users (Some "alice") MemStore.empty) in
  let s2 := snd (post_api_users_exercises JSDate.utc_host "id0" (Some "run")
                   (Some "30") (Some "2020-01-01") 1600000000000 s1) in
  let s3 := snd (post_api_users_exercises JSDate.utc_host "id0" (Some "swim")
                   (Some "20") None 1600000000000 s2) in
  fst (get_api_users_logs JSDate.utc_host "id0" (Some "2020-01-01")
         (Some "2020-01-01") None s3)
  = Json (Reply.OfLogs
      {| Reply.logs_username := Some "alice"; Reply.count := 1;
         Reply.logs_id := "id0";
         Reply.log := [ {| Reply.entry_description := Some "run";
                           Reply.entry_duration := Some (JS.of_Z 30);
                           Reply.entry_date := "Wed Jan 01 2020" |} ] |}).
Proof. vm_compute. reflexivity. Qed.

(** ** Calendar fields depend on the day only *)

Section CalendarDay.
Import JSDate.

Lemma msPerDay_pos : 0 < msPerDay.
Proof. reflexivity. Qed.

(** A year starts at or before [t] exactly when it starts on or before the
    day of [t]. *)
Lemma TimeFromYear_leb_Day (y t : Z) :
  (TimeFromYear y <=? t) = (DayFromYear y <=? Day t).
Proof.
  unfold TimeFromYear, Day.
  destruct (Z.leb_spec (DayFromYear y) (t / msPerDay)) as [H | H].
  - apply Z.leb_le.
    apply Z.le_trans with (msPerDay * (t / msPerDay)).
    + apply Z.mul_le_mono_nonneg_l; [ discriminate | exact H ].
    + apply Z.mul_div_le, msPerDay_pos.
  - apply Z.leb_gt.
    apply Z.lt_le_trans with (msPerDay * (t / msPerDay + 1)).
    + rewrite Z.mul_add_distr_l, Z.mul_1_r.
      pose proof (Z.mod_pos_bound t msPerDay msPerDay_pos) as Hm.
      pose proof (Z.div_mod t msPerDay) as Hd.
      assert (msPerDay <> 0) as Hne by discriminate.
      specialize (Hd Hne). lia.
    + apply Z.mul_le_mono_nonneg_l; [ discriminate | lia ].
Qed.

Lemma year_search_Day (fuel : nat) : forall lo hi t1 t2,
  Day t1 = Day t2 -> year_search fuel lo hi t1 = year_search fuel lo hi t2.
Proof.
  induction fuel as [| k IH]; intros lo hi t1 t2 E; simpl.
  - reflexivity.
  - destruct (lo <? hi); [| reflexivity ].
    rewrite !TimeFromYear_leb_Day, E.
    destruct (DayFromYear ((lo + hi + 1) / 2) <=? Day t2); apply IH; exact E.
Qed.

Lemma YearFromTime_Day (t1 t2 : Z) :
  Day t1 = Day t2 -> YearFromTime t1 = YearFromTime t2.
Proof. intros E. unfold YearFromTime. apply year_search_Day, E. Qed.

Lemma InLeapYear_Day (t1 t2 : Z) :
  Day t1 = Day t2 -> InLeapYear t1 = InLeapYear t2.
Proof. intros E. unfold InLeapYear. rewrite (YearFromTime_Day t1 t2 E). reflexivity. Qed.

Lemma DayWithinYear_Day (t1 t2 : Z) :
  Day t1 = Day t2 -> DayWithinYear t1 = DayWithinYear t2.
Proof.
  intros E. unfold DayWithinYear. rewrite (YearFromTime_Day t1 t2 E), E. reflexivity.
Qed.

Lemma MonthFromTime_Day (t1 t2 : Z) :
  Day t1 = Day t2 -> MonthFromTime t1 = MonthFromTime t2.
Proof.
  intros E. unfold MonthFromTime.
  rewrite (DayWithinYear_Day t1 t2 E), (InLeapYear_Day t1 t2 E). reflexivity.
Qed.

Lemma DateFromTime_Day (t1 t2 : Z) :
  Day t1 = Day t2 -> DateFromTime t1 = DateFromTime t2.
Proof.
  intros E. unfold DateFromTime.
  rewrite (MonthFromTime_Day t1 t2 E), (DayWithinYear_Day t1 t2 E),
    (InLeapYear_Day t1 t2 E).
  reflexivity.
Qed.

Lemma WeekDay_Day (t1 t2 : Z) : Day t1 = Day t2 -> WeekDay t1 = WeekDay t2.
Proof. intros E. unfold WeekDay. rewrite E. reflexivity. Qed.

Lemma DateString_Day (t1 t2 : Z) :
  Day t1 = Day t2 -> DateString t1 = DateString t2.
Proof.
  intros E. unfold DateString.
  rewrite (WeekDay_Day t1 t2 E), (MonthFromTime_Day t1 t2 E),
    (DateFromTime_Day t1 t2 E), (YearFromTime_Day t1 t2 E).
  reflexivity.
Qed.

End CalendarDay.

(** ** [YearFromTime] finds the year the standard defines *)

Section YearOfTime.
Import JSDate.

Lemma DayFromYear_next (y : Z) :
  DayFromYear (y + 1) = DayFromYear y + DaysInYear y.
Proof.
  unfold DayFromYear, DaysInYear.
  destruct (Z.eqb_spec (y mod 4) 0) as [H4 | H4];
    destruct (Z.eqb_spec (y mod 100) 0) as [H100 | H100];
    destruct (Z.eqb_spec (y mod 400) 0) as [H400 | H400]; cbn [negb];
    Z.div_mod_to_equations; lia.
Qed.

Lemma DaysInYear_pos (y : Z) : 0 < DaysInYear y.
Proof.
  unfold DaysInYear.
  destruct (y mod 4 =? 0), (y mod 100 =? 0), (y mod 400 =? 0); reflexivity.
Qed.

Lemma DayFromYear_lt (y1 y2 : Z) : y1 < y2 -> DayFromYear y1 < DayFromYear y2.
Proof.
  intros H. replace y2 with (y1 + 1 + (y2 - y1 - 1)) by lia.
  assert (0 <= y2 - y1 - 1) as Hk by lia.
  generalize dependent (y2 - y1 - 1). intros k Hk. clear H.
  revert k Hk. apply natlike_ind.
  - rewrite Z.add_0_r, DayFromYear_next. pose proof (DaysInYear_pos y1). lia.
  - intros k Hk IH. replace (y1 + 1 + Z.succ k) with (y1 + 1 + k + 1) by lia.
    rewrite DayFromYear_next. pose proof (DaysInYear_pos (y1 + 1 + k)). lia.
Qed.

Lemma TimeFromYear_lt (y1 y2 : Z) : y1 < y2 -> TimeFromYear y1 < TimeFromYear y2.
Proof.
  intros H. unfold TimeFromYear.
  apply Z.mul_lt_mono_pos_l; [ reflexivity | apply DayFromYear_lt, H ].
Qed.

(** With enough fuel the bisection ends on a year that starts at or before
    [t] and whose successor, if it is in range, starts after [t]. *)
Lemma year_search_spec (fuel : nat) : forall lo hi t y,
  y = year_search fuel lo hi t ->
  lo <= hi -> hi - lo < 2 ^ Z.of_nat fuel ->
  TimeFromYear lo <= t ->
  lo <= y <= hi /\ TimeFromYear y <= t /\ (y < hi -> t < TimeFromYear (y + 1)).
Proof.
  induction fuel as [| k IH]; intros lo hi t y Hy Hle Hfuel Hlo.
  - simpl in Hy, Hfuel. assert (hi = lo) by lia. subst hi y. repeat split; lia.
  - simpl year_search in Hy.
    rewrite Nat2Z.inj_succ, Z.pow_succ_r in Hfuel by lia.
    destruct (Z.ltb_spec lo hi) as [Hlt | Hge].
    + set (mid := (lo + hi + 1) / 2) in Hy.
      assert (lo < mid <= hi) as Hmid
        by (unfold mid; Z.div_mod_to_equations; lia).
      destruct (Z.leb_spec (TimeFromYear mid) t) as [Hm | Hm].
      * assert (hi - mid < 2 ^ Z.of_nat k) as Hf
          by (unfold mid in *; Z.div_mod_to_equations; lia).
        destruct (IH mid hi t y Hy ltac:(lia) Hf Hm) as (Hr & Ht & Hn).
        repeat split; try lia; assumption.
      * assert (mid - 1 - lo < 2 ^ Z.of_nat k) as Hf
          by (unfold mid in *; Z.div_mod_to_equations; lia).
        destruct (IH lo (mid - 1) t y Hy ltac:(lia) Hf Hlo) as (Hr & Ht & Hn).
        repeat split; try lia.
        intros _.
        destruct (Z.eq_dec y (mid - 1)) as [E | E].
        -- rewrite E. replace (mid - 1 + 1) with mid by lia. exact Hm.
        -- apply Hn. lia.
    + assert (hi = lo) by lia. subst hi y. repeat split; lia.
Qed.

Lemma YearFromTime_unfold (t : Z) :
  YearFromTime t = year_search 20 min_year max_year t.
Proof. unfold YearFromTime. reflexivity. Qed.

(** A year in range that starts at or before [t], with the next one after
    [t], is the largest year that starts at or before [t]. *)
Lemma largest_year (t y0 : Z) :
  TimeFromYear y0 <= t -> t < TimeFromYear (y0 + 1) ->
  forall y, TimeFromYear y <= t -> y <= y0.
Proof.
  intros Ht Hnext y Hy.
  destruct (Z.le_gt_cases y y0) as [H | H]; [ exact H | exfalso ].
  destruct (Z.eq_dec y (y0 + 1)) as [E | E].
  - subst y. lia.
  - pose proof (TimeFromYear_lt (y0 + 1) y ltac:(lia)). lia.
Qed.

(** [YearFromTime t] is the largest year that starts at or before [t], for
    every [t] in the years a time value can fall in. *)
Lemma YearFromTime_spec (t : Z) :
  TimeFromYear min_year <= t < TimeFromYear (max_year + 1) ->
  TimeFromYear (YearFromTime t) <= t
  /\ forall y, TimeFromYear y <= t -> y <= YearFromTime t.
Proof.
  intros [Hlo Hhi].
  assert (min_year <= max_year) as Hrange by discriminate.
  assert (max_year - min_year < 2 ^ Z.of_nat 20) as Hfuel by reflexivity.
  pose proof (year_search_spec 20 min_year max_year t (YearFromTime t)
                (YearFromTime_unfold t) Hrange Hfuel Hlo) as Hs.
  revert Hs. generalize (YearFromTime t). intros y0 (Hr & Ht & Hn).
  split; [ exact Ht | ].
  apply largest_year; [ exact Ht | ].
  destruct (Z.eq_dec y0 max_year) as [E | E].
  - rewrite E. exact Hhi.
  - apply Hn. lia.
Qed.

End YearOfTime.

(** ** What each route does, case by case *)

Section RouteCases.
Context {db : Type} {store : Store db}.
Variable host : JSDate.Host.

Ltac run_route :=
  unfold post_api_users, get_api_users, post_api_users_exercises,
    get_api_users_logs, async, try_catch, bind, await_read, await_write.

(** The users route answers with whatever list the store resolves to. *)
Lemma get_api_users_resolved (s : db) (users : list User.t) :
  User_find s = Ok users ->
  get_api_users s = (Json (Reply.OfUsers users), s).
Proof. intros H. run_route. rewrite H. reflexivity. Qed.

Lemma get_api_users_rejected (s : db) (e : error) :
  User_find s = Err e -> get_api_users s = (Rejected e, s).
Proof. intros H. run_route. rewrite H. reflexivity. Qed.

Lemma post_api_users_rejected (s : db) (username : option string) (e : error) :
  User_save s username = Err e -> post_api_users username s = (Logged e, s).
Proof. intros H. run_route. rewrite H. reflexivity. Qed.

Lemma post_api_users_saved (s s' : db) (username : option string) (u : User.t) :
  User_save s username = Ok (u, s') ->
  post_api_users username s = (Json (Reply.OfUser u), s').
Proof. intros H. run_route. rewrite H. reflexivity. Qed.

(** The exercise route on a found user: one save, of [exerciseObj]. *)
Lemma post_api_users_exercises_found (s : db) (id : string)
    (description duration date : option string) (now : Z) (user : User.t) :
  User_findById s id = Ok (Some user) ->
  post_api_users_exercises host id description duration date now s =
  match Exercise_save s (exerciseObj host user description duration date now) with
  | Ok (exercise, s') =>
      (Json (Reply.OfExercise
         {| Reply._id := User._id user;
            Reply.username := User.username user;
            Reply.description := Exercise.description exercise;
            Reply.duration := Exercise.duration exercise;
            Reply.date := JSDate.toDateString host (Exercise.date exercise) |}),
       s')
  | Err _ => (Send "there was an error", s)
  end.
Proof.
  intros H. run_route. rewrite H. cbn [JS.ToBoolean_nullable JS.ToBoolean_object negb property_of ret].
  destruct (Exercise_save s _) as [[exercise s'] | e]; reflexivity.
Qed.

Lemma post_api_users_exercises_rejected (s : db) (id : string)
    (description duration date : option string) (now : Z) (e : error) :
  User_findById s id = Err e ->
  post_api_users_exercises host id description duration date now s =
  (Send "there was an error", s).
Proof. intros H. run_route. rewrite H. reflexivity. Qed.

(** The logs route on a found user: one query, with [filter] and
    [limit_arg]. *)
Lemma get_api_users_logs_found (s : db) (id : string)
    (from to limit : option string) (user : User.t) :
  User_findById s id = Ok (Some user) ->
  get_api_users_logs host id from to limit s =
  match Exercise_find s (filter host id from to) (limit_arg limit) with
  | Ok exercises =>
      (Json (Reply.OfLogs
         {| Reply.logs_username := User.username user;
            Reply.count := List.length exercises;
            Reply.logs_id := User._id user;
            Reply.log := map (log_entry host) exercises |}),
       s)
  | Err e => (Rejected e, s)
  end.
Proof.
  intros H. run_route. rewrite H. cbn [JS.ToBoolean_nullable JS.ToBoolean_object negb].
  destruct (Exercise_find s _ _) as [exercises | e]; reflexivity.
Qed.

Lemma get_api_users_logs_not_found (s : db) (id : string)
    (from to limit : option string) :
  User_findById s id = Ok None ->
  get_api_users_logs host id from to limit s = (Send "could not find user", s).
Proof. intros H. run_route. rewrite H. reflexivity. Qed.

Lemma get_api_users_logs_rejected (s : db) (id : string)
    (from to limit : option string) (e : error) :
  User_findById s id = Err e ->
  get_api_users_logs host id from to limit s = (Rejected e, s).
Proof. intros H. run_route. rewrite H. reflexivity. Qed.

End RouteCases.

(** ** Truthiness of a request parameter *)

Lemma ToBoolean_param (p : option string) :
  JS.ToBoolean (JS.param p) = non_empty p.
Proof. destruct p as [[| c r] |]; reflexivity. Qed.

(** [+limit] is a Number whatever [limit] is, so [??] never takes its right
    operand. *)
Lemma limit_arg_unary_plus (limit : option string) :
  limit_arg limit = JS.unary_plus (JS.param limit).
Proof. reflexivity. Qed.

(** With no [limit] in the query the store is given NaN. *)
Lemma limit_arg_absent : limit_arg None = JS.Num JS.NaN.
Proof. reflexivity. Qed.

Lemma exercise_date_cases (host : JSDate.Host) (date : option string) (now : Z) :
  exercise_date host date now =
  match date with
  | Some (String c r) => JSDate.Date_parse host (String c r)
  | _ => JSDate.TimeValue now
  end.
Proof. destruct date as [[| c r] |]; reflexivity. Qed.

Lemma dateObj_cases (host : JSDate.Host) (from to : option string) :
  dateObj host from to =
  {| Query.gte := if non_empty from
                  then option_map (JSDate.Date_parse host) from else None;
     Query.lte := if non_empty to
                  then option_map (JSDate.Date_parse host) to else None |}.
Proof. destruct from as [[| c r] |], to as [[| c' r'] |]; reflexivity. Qed.

Lemma filter_cases (host : JSDate.Host) (id : string) (from to : option string) :
  filter host id from to =
  {| Query.userId := id;
     Query.date := if non_empty from || non_empty to
                   then Some (dateObj host from to) else None |}.
Proof. destruct from as [[| c r] |], to as [[| c' r'] |]; reflexivity. Qed.

(** ** The result cap of the logs query *)

(** C1, as stated, fails: a [limit] of ["0"] is present and coerces to zero,
    for which the claim gives the default cap of 500; the route gives the
    store the zero. *)
Lemma limit_zero_is_not_defaulted :
  limit_arg (Some "0") = JS.Num (JS.of_Z 0)
  /\ Spec.cap (Some "0") = JS.Num (JS.of_Z 500)
  /\ limit_arg (Some "0") <> Spec.cap (Some "0").
Proof. repeat split; try reflexivity. discriminate. Qed.

(** C1, amended: for every logs query on an existing user that carries a
    [limit] parameter, the cap given to the store is that [limit] coerced to
    a number, whatever the coercion gives (zero and NaN too); no default
    takes the place of a supplied [limit]. *)
Theorem limit_supplied_is_coerced {db : Type} {store : Store db}
    (host : JSDate.Host) (s : db) (id : string) (from to : option string)
    (text : string) (user : User.t) :
  User_findById s id = Ok (Some user) ->
  limit_arg (Some text) = JS.Num (JS.StringToNumber text)
  /\ get_api_users_logs host id from to (Some text) s =
     match Exercise_find s (filter host id from to)
             (JS.Num (JS.StringToNumber text)) with
     | Ok exercises =>
         (Json (Reply.OfLogs
            {| Reply.logs_username := User.username user;
               Reply.count := List.length exercises;
               Reply.logs_id := User._id user;
               Reply.log := map (log_entry host) exercises |}),
          s)
     | Err e => (Rejected e, s)
     end.
Proof.
  intros H. split; [ reflexivity | ].
  rewrite (get_api_users_logs_found host s id from to (Some text) user H).
  reflexivity.
Qed.

Lemma limit_supplied_is_coerced_witness :
  User_findById db_two "id0" = Ok (Some alice)
  /\ limit_arg (Some "1") = JS.Num (JS.of_Z 1)
  /\ fst (get_api_users_logs JSDate.utc_host "id0" None None (Some "1") db_two)
     = Json (Reply.OfLogs
         {| Reply.logs_username := Some "alice"; Reply.count := 1;
            Reply.logs_id := "id0";
            Reply.log := [ {| Reply.entry_description := Some "swim";
                              Reply.entry_duration := Some (JS.of_Z 20);
                              Reply.entry_date := "Wed Jan 01 2020" |} ] |}).
Proof.
  assert (User_findById db_two "id0" = Ok (Some alice)) as H by reflexivity.
  destruct (limit_supplied_is_coerced JSDate.utc_host db_two "id0" None None
              "1" alice H) as [Hcap Hrun].
  split; [ exact H | split ].
  - rewrite Hcap. vm_compute. reflexivity.
  - rewrite Hrun. vm_compute. reflexivity.
Defined.

(** ** The filter of the logs query *)

(** C2, as stated, fails: with [from] present but empty the filter has no
    lower bound. *)
Lemma empty_from_adds_no_bound :
  ~ Spec.filter_as_stated "id0" (Some EmptyString) None
      (filter JSDate.utc_host "id0" (Some EmptyString) None).
Proof.
  intros (_ & Hfrom & _). apply Hfrom; reflexivity.
Qed.

(** C2, amended: the filter of a logs query always has [userId] equal to
    the given id; a [from] that is present and not empty puts the lower
    bound [$gte], the parsed [from], on [date]; a [to] that is present and
    not empty puts the upper bound [$lte], the parsed [to]; an absent or
    empty one puts no bound, and when neither is present and not empty the
    filter has no [date] key at all. *)
Theorem filter_shape (host : JSDate.Host) (id : string) (from to : option string) :
  Query.userId (filter host id from to) = id
  /\ Spec.lower_bound (filter host id from to) =
     (if non_empty from then option_map (JSDate.Date_parse host) from else None)
  /\ Spec.upper_bound (filter host id from to) =
     (if non_empty to then option_map (JSDate.Date_parse host) to else None)
  /\ (non_empty from = false -> non_empty to = false ->
      Query.date (filter host id from to) = None).
Proof.
  rewrite filter_cases, dateObj_cases. unfold Spec.lower_bound, Spec.upper_bound.
  cbn [Query.userId Query.date Query.gte Query.lte].
  destruct (non_empty from), (non_empty to); cbn [orb];
    repeat split; try reflexivity; intros; discriminate.
Qed.

Lemma filter_shape_witness :
  Query.userId (filter JSDate.utc_host "id0" (Some "2020-01-01") None) = "id0"
  /\ Spec.lower_bound (filter JSDate.utc_host "id0" (Some "2020-01-01") None)
     = Some (JSDate.TimeValue 1577836800000)
  /\ Spec.upper_bound (filter JSDate.utc_host "id0" (Some "2020-01-01") None)
     = None
  /\ Query.date (filter JSDate.utc_host "id0" None (Some EmptyString)) = None.
Proof.
  destruct (filter_shape JSDate.utc_host "id0" (Some "2020-01-01") None)
    as (Hid & Hlo & Hhi & _).
  destruct (filter_shape JSDate.utc_host "id0" None (Some EmptyString))
    as (_ & _ & _ & Hnone).
  refine (conj _ (conj _ (conj _ _))).
  - exact Hid.
  - rewrite Hlo. vm_compute. reflexivity.
  - rewrite Hhi. reflexivity.
  - apply Hnone; reflexivity.
Defined.

(** In the in-memory store a filter with both bounds passes the documents
    of the user dated from the lower to the upper bound, ends included. *)
Lemma matches_range (id : string) (lo hi : Z) (e : Exercise.t) (t : Z) :
  Exercise.date e = JSDate.TimeValue t ->
  MemStore.matches
    {| Query.userId := id;
       Query.date := Some {| Query.gte := Some (JSDate.TimeValue lo);
                             Query.lte := Some (JSDate.TimeValue hi) |} |} e
  = String.eqb (Exercise.userId e) id && ((lo <=? t) && (t <=? hi)).
Proof.
  intros H. unfold MemStore.matches. cbn [Query.userId Query.date Query.gte Query.lte].
  rewrite H. reflexivity.
Qed.

(** ** Failures of the store *)

(** C3 does not hold of the code: when the store rejects, the logs route
    and the users route let the error leave the handler, and the route
    that creates a user swallows it without any response.  Only the
    exercise route answers ("there was an error"). *)
Theorem store_failures_escape {db : Type} {store : Store db}
    (host : JSDate.Host) (s : db) (id : string)
    (from to limit username : option string) (e1 e2 e3 : error) :
  User_findById s id = Err e1 ->
  User_find s = Err e2 ->
  User_save s username = Err e3 ->
  get_api_users_logs host id from to limit s = (Rejected e1, s)
  /\ get_api_users s = (Rejected e2, s)
  /\ post_api_users username s = (Logged e3, s).
Proof.
  intros H1 H2 H3. refine (conj _ (conj _ _)).
  - apply get_api_users_logs_rejected, H1.
  - apply get_api_users_rejected, H2.
  - apply post_api_users_rejected, H3.
Qed.

Lemma store_failures_escape_witness :
  let s := MemStore.disconnect db_two in
  get_api_users_logs JSDate.utc_host "id0" None None None s
    = (Rejected MemStore.network_error, s)
  /\ get_api_users s = (Rejected MemStore.network_error, s)
  /\ post_api_users (Some "bob") s = (Logged MemStore.network_error, s).
Proof.
  exact (store_failures_escape JSDate.utc_host (MemStore.disconnect db_two)
           "id0" None None None (Some "bob")
           MemStore.network_error MemStore.network_error MemStore.network_error
           eq_refl eq_refl eq_refl).
Defined.

(** The same happens when the query of the logs route rejects, after the
    user was found. *)
Lemma logs_query_failure_escapes {db : Type} {store : Store db}
    (host : JSDate.Host) (s : db) (id : string) (from to limit : option string)
    (user : User.t) (e : error) :
  User_findById s id = Ok (Some user) ->
  Exercise_find s (filter host id from to) (limit_arg limit) = Err e ->
  get_api_users_logs host id from to limit s = (Rejected e, s).
Proof.
  intros Hu Hq. rewrite (get_api_users_logs_found host s id from to limit user Hu), Hq.
  reflexivity.
Qed.

(** ** Appending an exercise *)

(** C4, as stated, fails: ["id9"] is the id of no user, so it does not
    resolve to an existing user; it is no ObjectId either, so the lookup
    rejects, and the route answers "there was an error" and not "could not
    find user". *)
Lemma malformed_id_is_an_error :
  (forall u, In u (MemStore.users db_two) -> User._id u <> "id9")
  /\ @User_findById _ CastStore.store db_two "id9" = Err CastStore.cast_error
  /\ @post_api_users_exercises _ CastStore.store JSDate.utc_host "id9"
       (Some "run") (Some "30") (Some "2020-01-01") noon_2020_01_01 db_two
     = (Send "there was an error", db_two)
  /\ fst (@post_api_users_exercises _ CastStore.store JSDate.utc_host "id9"
            (Some "run") (Some "30") (Some "2020-01-01") noon_2020_01_01 db_two)
     <> Send "could not find user".
Proof.
  refine (conj _ (conj eq_refl (conj eq_refl _))).
  - intros u [<- | []]. discriminate.
  - discriminate.
Qed.

(** C4, amended: for every append-exercise request whose user id does not
    resolve to an existing user, the store is left as it was (nothing is
    saved); the answer is "could not find user" when the lookup resolves to
    no document, and "there was an error" when the lookup rejects. *)
Theorem exercise_for_unknown_user {db : Type} {store : Store db}
    (host : JSDate.Host) (s : db) (id : string)
    (description duration date : option string) (now : Z) :
  (forall user, User_findById s id <> Ok (Some user)) ->
  snd (post_api_users_exercises host id description duration date now s) = s
  /\ ((User_findById s id = Ok None
       /\ fst (post_api_users_exercises host id description duration date now s)
          = Send "could not find user")
      \/ ((exists e, User_findById s id = Err e)
          /\ fst (post_api_users_exercises host id description duration date
                    now s)
             = Send "there was an error")).
Proof.
  intros Hnone.
  unfold post_api_users_exercises, async, try_catch, bind, await_read.
  destruct (User_findById s id) as [[user |] | e] eqn:H.
  - exfalso. exact (Hnone user eq_refl).
  - split; [ reflexivity | left; split; reflexivity ].
  - split; [ reflexivity | right; split; [ exists e | ]; reflexivity ].
Qed.

Lemma exercise_for_unknown_user_witness :
  (forall user, User_findById db_two "id9" <> Ok (Some user))
  /\ post_api_users_exercises JSDate.utc_host "id9" (Some "run") (Some "30")
       (Some "2020-01-01") noon_2020_01_01 db_two
     = (Send "could not find user", db_two)
  /\ MemStore.exercises
       (snd (post_api_users_exercises JSDate.utc_host "id9" (Some "run")
               (Some "30") (Some "2020-01-01") noon_2020_01_01 db_two))
     = MemStore.exercises db_two.
Proof.
  assert (forall user, User_findById db_two "id9" <> Ok (Some user)) as H
    by (intros user; discriminate).
  destruct (exercise_for_unknown_user JSDate.utc_host db_two "id9"
              (Some "run") (Some "30") (Some "2020-01-01") noon_2020_01_01 H)
    as [Hstore _].
  refine (conj H (conj eq_refl _)). rewrite Hstore. reflexivity.
Defined.

(** C5, as stated, fails: a [date] field that is supplied but empty is not
    parsed; the exercise is dated at the clock reading.  This holds with
    any parser, since the stored date then follows the clock. *)
Lemma empty_date_is_not_parsed :
  exercise_date JSDate.utc_host (Some EmptyString) noon_2020_01_01
    = JSDate.TimeValue noon_2020_01_01
  /\ Spec.exercise_date JSDate.utc_host (Some EmptyString) noon_2020_01_01
     = JSDate.Invalid
  /\ exercise_date JSDate.utc_host (Some EmptyString) noon_2020_01_01
     <> Spec.exercise_date JSDate.utc_host (Some EmptyString) noon_2020_01_01
  /\ ~ (forall (host : JSDate.Host) (now : Z),
          exercise_date host (Some EmptyString) now
          = Spec.exercise_date host (Some EmptyString) now).
Proof.
  refine (conj eq_refl (conj eq_refl (conj _ _))).
  - discriminate.
  - intros H.
    pose proof (H JSDate.utc_host 0) as H0.
    pose proof (H JSDate.utc_host 1) as H1.
    cbv in H0, H1. congruence.
Qed.

(** C5, amended: on an existing user the exercise route saves one document,
    whose [date] is the moment of handling when the caller passes no date
    or an empty one, and the caller's date text parsed otherwise. *)
Theorem exercise_date_stored {db : Type} {store : Store db}
    (host : JSDate.Host) (s : db) (id : string)
    (description duration date : option string) (now : Z) (user : User.t) :
  User_findById s id = Ok (Some user) ->
  post_api_users_exercises host id description duration date now s =
  match Exercise_save s
          {| Exercise.new_userId := User._id user;
             Exercise.new_description := description;
             Exercise.new_duration := duration;
             Exercise.new_date :=
               match date with
               | Some (String c r) => JSDate.Date_parse host (String c r)
               | _ => JSDate.TimeValue now
               end |} with
  | Ok (exercise, s') =>
      (Json (Reply.OfExercise
         {| Reply._id := User._id user;
            Reply.username := User.username user;
            Reply.description := Exercise.description exercise;
            Reply.duration := Exercise.duration exercise;
            Reply.date := JSDate.toDateString host (Exercise.date exercise) |}),
       s')
  | Err _ => (Send "there was an error", s)
  end.
Proof.
  intros H.
  rewrite (post_api_users_exercises_found host s id description duration date
             now user H).
  unfold exerciseObj. rewrite exercise_date_cases. reflexivity.
Qed.

Lemma exercise_date_stored_witness :
  User_findById db_alice "id0" = Ok (Some alice)
  /\ map Exercise.date
       (MemStore.exercises
          (snd (post_api_users_exercises JSDate.utc_host "id0" (Some "swim")
                  (Some "20") None noon_2020_01_01 db_alice)))
     = [JSDate.TimeValue noon_2020_01_01]
  /\ map Exercise.date
       (MemStore.exercises
          (snd (post_api_users_exercises JSDate.utc_host "id0" (Some "swim")
                  (Some "20") (Some "2020-01-01") noon_2020_01_01 db_alice)))
     = [JSDate.TimeValue 1577836800000].
Proof.
  assert (User_findById db_alice "id0" = Ok (Some alice)) as H by reflexivity.
  refine (conj H (conj _ _)).
  - rewrite (exercise_date_stored JSDate.utc_host db_alice "id0" (Some "swim")
               (Some "20") None noon_2020_01_01 alice H).
    vm_compute. reflexivity.
  - rewrite (exercise_date_stored JSDate.utc_host db_alice "id0" (Some "swim")
               (Some "20") (Some "2020-01-01") noon_2020_01_01 alice H).
    vm_compute. reflexivity.
Defined.

(** C9: on an existing user, an empty [date] field is handled as an absent
    one: the document given to the store to save is dated at the moment of
    handling, not at a parse of the empty string, and the request has the
    outcome of the request without the field. *)
Theorem empty_date_is_absent {db : Type} {store : Store db}
    (host : JSDate.Host) (s : db) (id : string)
    (description duration : option string) (now : Z) (user : User.t) :
  User_findById s id = Ok (Some user) ->
  post_api_users_exercises host id description duration (Some EmptyString) now s
  = match Exercise_save s
            {| Exercise.new_userId := User._id user;
               Exercise.new_description := description;
               Exercise.new_duration := duration;
               Exercise.new_date := JSDate.TimeValue now |} with
    | Ok (exercise, s') =>
        (Json (Reply.OfExercise
           {| Reply._id := User._id user;
              Reply.username := User.username user;
              Reply.description := Exercise.description exercise;
              Reply.duration := Exercise.duration exercise;
              Reply.date := JSDate.toDateString host (Exercise.date exercise) |}),
         s')
    | Err _ => (Send "there was an error", s)
    end
  /\ post_api_users_exercises host id description duration (Some EmptyString)
       now s
     = post_api_users_exercises host id description duration None now s
  /\ exerciseObj host user description duration (Some EmptyString) now
     = exerciseObj host user description duration None now.
Proof.
  intros H. refine (conj _ (conj eq_refl eq_refl)).
  rewrite (post_api_users_exercises_found host s id description duration
             (Some EmptyString) now user H).
  reflexivity.
Qed.

Lemma empty_date_is_absent_witness :
  User_findById db_alice "id0" = Ok (Some alice)
  /\ JSDate.Date_parse JSDate.utc_host EmptyString = JSDate.Invalid
  /\ MemStore.exercises
       (snd (post_api_users_exercises JSDate.utc_host "id0" (Some "swim")
               (Some "20") (Some EmptyString) noon_2020_01_01 db_alice))
     = [ {| Exercise._id := "id1"; Exercise.userId := "id0";
            Exercise.description := Some "swim";
            Exercise.duration := Some (JS.of_Z 20);
            Exercise.date := JSDate.TimeValue noon_2020_01_01 |} ]
  /\ post_api_users_exercises JSDate.utc_host "id0" (Some "swim") (Some "20")
       (Some EmptyString) noon_2020_01_01 db_alice
     = post_api_users_exercises JSDate.utc_host "id0" (Some "swim") (Some "20")
         None noon_2020_01_01 db_alice.
Proof.
  assert (User_findById db_alice "id0" = Ok (Some alice)) as H by reflexivity.
  destruct (empty_date_is_absent JSDate.utc_host db_alice "id0" (Some "swim")
              (Some "20") noon_2020_01_01 alice H) as (Hsave & Hsame & _).
  refine (conj H (conj eq_refl (conj _ Hsame))).
  rewrite Hsave. vm_compute. reflexivity.
Defined.

(** ** The log summary *)

(** C6: for an existing user whose query the store answers, the logs route
    responds with the user's name and id, the log, and a [count] equal to
    the length of that log; when the user has no exercise to return the
    response has the empty log and the count zero, and is no "could not
    find user". *)
Theorem log_summary_count {db : Type} {store : Store db}
    (host : JSDate.Host) (s : db) (id : string) (from to limit : option string)
    (user : User.t) (exercises : list Exercise.t) :
  User_findById s id = Ok (Some user) ->
  Exercise_find s (filter host id from to) (limit_arg limit) = Ok exercises ->
  exists summary : Reply.logs,
    get_api_users_logs host id from to limit s = (Json (Reply.OfLogs summary), s)
    /\ Reply.logs_username summary = User.username user
    /\ Reply.logs_id summary = User._id user
    /\ Reply.log summary = map (log_entry host) exercises
    /\ Reply.count summary = List.length (Reply.log summary)
    /\ (exercises = [] ->
        Reply.count summary = 0%nat /\ Reply.log summary = []).
Proof.
  intros Hu Hq.
  rewrite (get_api_users_logs_found host s id from to limit user Hu), Hq.
  eexists. split; [ reflexivity | ].
  cbn [Reply.logs_username Reply.logs_id Reply.log Reply.count].
  refine (conj eq_refl (conj eq_refl (conj eq_refl (conj _ _)))).
  - symmetry. apply length_map.
  - intros E. rewrite E. split; reflexivity.
Qed.

Lemma log_summary_count_witness :
  User_findById db_alice "id0" = Ok (Some alice)
  /\ Exercise_find db_alice (filter JSDate.utc_host "id0" None None)
       (limit_arg None) = Ok []
  /\ get_api_users_logs JSDate.utc_host "id0" None None None db_alice
     = (Json (Reply.OfLogs
          {| Reply.logs_username := Some "alice"; Reply.count := 0;
             Reply.logs_id := "id0"; Reply.log := [] |}),
        db_alice).
Proof.
  assert (User_findById db_alice "id0" = Ok (Some alice)) as Hu by reflexivity.
  assert (Exercise_find db_alice (filter JSDate.utc_host "id0" None None)
            (limit_arg None) = Ok []) as Hq by reflexivity.
  refine (conj Hu (conj Hq _)).
  destruct (log_summary_count JSDate.utc_host db_alice "id0" None None None
              alice [] Hu Hq)
    as ([name count uid log] & Hrun & Hname & Hid & _ & _ & Hzero).
  destruct (Hzero eq_refl) as [Hcount Hlog].
  cbn in Hname, Hid, Hcount, Hlog. subst. exact Hrun.
Defined.

(** In the in-memory store a user none of whose exercises is stored gets
    the empty log, whatever the range and the limit. *)
Lemma find_exercises_of_nobody (s : MemStore.db) (f : Query.filter) (n : JS.value) :
  MemStore.connected s = true ->
  (forall e, In e (MemStore.exercises s) -> Exercise.userId e <> Query.userId f) ->
  MemStore.find_exercises s f n = Ok [].
Proof.
  intros Hc Hnone. unfold MemStore.find_exercises. rewrite Hc.
  assert (List.filter (MemStore.matches f) (MemStore.exercises s) = []) as E.
  { induction (MemStore.exercises s) as [| e l IH]; [ reflexivity | ].
    cbn [List.filter].
    assert (MemStore.matches f e = false) as Hm.
    { unfold MemStore.matches.
      destruct (String.eqb_spec (Exercise.userId e) (Query.userId f)) as [E | E].
      - exfalso. apply (Hnone e); [ left; reflexivity | exact E ].
      - reflexivity. }
    rewrite Hm. apply IH. intros e' He'. apply Hnone. right. exact He'. }
  rewrite E. unfold MemStore.limit.
  destruct n as [| | [| neg | q] | str]; try reflexivity.
  destruct (Z.abs _ =? 0); [ reflexivity | rewrite firstn_nil; reflexivity ].
Qed.

(** ** The list of users *)

(** C7: when the store resolves the query for all users to the empty list,
    the users route responds with the empty list as JSON, and not with the
    text "no users". *)
Theorem no_users_is_empty_list {db : Type} {store : Store db} (s : db) :
  User_find s = Ok [] ->
  get_api_users s = (Json (Reply.OfUsers []), s)
  /\ fst (get_api_users s) <> Send "no users".
Proof.
  intros H. rewrite (get_api_users_resolved s [] H). split; [ reflexivity | ].
  discriminate.
Qed.

Lemma no_users_is_empty_list_witness :
  User_find MemStore.empty = Ok []
  /\ get_api_users MemStore.empty = (Json (Reply.OfUsers []), MemStore.empty)
  /\ fst (get_api_users MemStore.empty) <> Send "no users".
Proof.
  assert (User_find MemStore.empty = Ok []) as H by reflexivity.
  exact (conj H (no_users_is_empty_list MemStore.empty H)).
Defined.

(** The text "no users" is the response to no list the store resolves to. *)
Lemma no_users_text_is_never_sent {db : Type} {store : Store db} (s : db) :
  fst (get_api_users s) <> Send "no users".
Proof.
  destruct (User_find s) as [users | e] eqn:H.
  - rewrite (get_api_users_resolved s users H). discriminate.
  - rewrite (get_api_users_rejected s e H). discriminate.
Qed.

(** ** The date of a log entry *)

(** C8: the [date] of a log entry depends on the calendar day of the
    stored date only, the day being that of the server's local time: two
    exercises whose dates fall on the same local day get the same string. *)
Theorem log_date_depends_on_day (host : JSDate.Host) (e1 e2 : Exercise.t)
    (t1 t2 : Z) :
  Exercise.date e1 = JSDate.TimeValue t1 ->
  Exercise.date e2 = JSDate.TimeValue t2 ->
  JSDate.Day (JSDate.LocalTime host t1) = JSDate.Day (JSDate.LocalTime host t2) ->
  Reply.entry_date (log_entry host e1) = Reply.entry_date (log_entry host e2).
Proof.
  intros H1 H2 Hday. unfold log_entry. cbn [Reply.entry_date].
  rewrite H1, H2. unfold JSDate.toDateString.
  apply DateString_Day, Hday.
Qed.

Lemma log_date_depends_on_day_witness :
  noon_2020_01_01 <> end_of_2020_01_01
  /\ JSDate.Day (JSDate.LocalTime JSDate.utc_host noon_2020_01_01)
     = JSDate.Day (JSDate.LocalTime JSDate.utc_host end_of_2020_01_01)
  /\ Reply.entry_date (log_entry JSDate.utc_host swim) = "Wed Jan 01 2020"
  /\ Reply.entry_date (log_entry JSDate.utc_host swim)
     = Reply.entry_date (log_entry JSDate.utc_host run).
Proof.
  assert (JSDate.Day (JSDate.LocalTime JSDate.utc_host noon_2020_01_01)
          = JSDate.Day (JSDate.LocalTime JSDate.utc_host end_of_2020_01_01))
    as Hday by reflexivity.
  refine (conj _ (conj Hday (conj _ _))).
  - discriminate.
  - vm_compute. reflexivity.
  - exact (log_date_depends_on_day JSDate.utc_host swim run noon_2020_01_01
             end_of_2020_01_01 eq_refl eq_refl Hday).
Defined.

(** ** Empty bounds of the logs query *)

(** C10: a [from] or a [to] that is the empty string is handled as an
    absent one: the filter is the same, so is the outcome of the request,
    and with both empty the filter has no [date] key. *)
Theorem empty_bounds_are_absent {db : Type} {store : Store db}
    (host : JSDate.Host) (s : db) (id : string) (from to limit : option string) :
  filter host id (Some EmptyString) to = filter host id None to
  /\ filter host id from (Some EmptyString) = filter host id from None
  /\ Query.date (filter host id (Some EmptyString) (Some EmptyString)) = None
  /\ get_api_users_logs host id (Some EmptyString) to limit s
     = get_api_users_logs host id None to limit s
  /\ get_api_users_logs host id from (Some EmptyString) limit s
     = get_api_users_logs host id from None limit s.
Proof.
  assert (filter host id from (Some EmptyString) = filter host id from None) as Hto
    by (rewrite !filter_cases, !dateObj_cases; reflexivity).
  refine (conj eq_refl (conj Hto (conj eq_refl (conj eq_refl _)))).
  unfold get_api_users_logs. rewrite Hto. reflexivity.
Qed.

(** * Further properties of the routes *)

(** ** Every case of the two POST routes *)

(** X1: the exercise route always answers, and in exactly three ways:
    "could not find user" when the lookup resolves to no document, "there
    was an error" when the lookup or the save rejects, and the JSON of the
    saved exercise under the user's id and name otherwise.  The store
    changes in the last case only, to what the save made of it. *)
Theorem exercise_route_cases {db : Type} {store : Store db}
    (host : JSDate.Host) (s : db) (id : string)
    (description duration date : option string) (now : Z) :
  (User_findById s id = Ok None
   /\ post_api_users_exercises host id description duration date now s
      = (Send "could not find user", s))
  \/ ((exists e, User_findById s id = Err e
       \/ exists user, User_findById s id = Ok (Some user)
            /\ Exercise_save s
                 (exerciseObj host user description duration date now) = Err e)
      /\ post_api_users_exercises host id description duration date now s
         = (Send "there was an error", s))
  \/ (exists user exercise s',
        User_findById s id = Ok (Some user)
        /\ Exercise_save s (exerciseObj host user description duration date now)
           = Ok (exercise, s')
        /\ post_api_users_exercises host id description duration date now s
           = (Json (Reply.OfExercise
                {| Reply._id := User._id user;
                   Reply.username := User.username user;
                   Reply.description := Exercise.description exercise;
                   Reply.duration := Exercise.duration exercise;
                   Reply.date :=
                     JSDate.toDateString host (Exercise.date exercise) |}),
              s')).
Proof.
  destruct (User_findById s id) as [[user |] | e] eqn:Hu.
  - rewrite (post_api_users_exercises_found host s id description duration date
               now user Hu).
    destruct (Exercise_save s _) as [[exercise s'] | e] eqn:Hs.
    + right. right. exists user, exercise, s'. auto.
    + right. left. split; [ | reflexivity ].
      exists e. right. exists user. auto.
  - left. split; [ reflexivity | ].
    unfold post_api_users_exercises, async, try_catch, bind, await_read.
    rewrite Hu. reflexivity.
  - right. left. split; [ exists e; left; reflexivity | ].
    apply (post_api_users_exercises_rejected host s id description duration
             date now e Hu).
Qed.

(** X2: the route that creates a user answers with the very document the
    store saved, in the store the save produced; when the save rejects it
    answers nothing, logs the error and leaves the store as it was.  It
    never sends a text and its promise never rejects. *)
Theorem create_user_cases {db : Type} {store : Store db}
    (s : db) (username : option string) :
  (exists u s', User_save s username = Ok (u, s')
     /\ post_api_users username s = (Json (Reply.OfUser u), s'))
  \/ (exists e, User_save s username = Err e
        /\ post_api_users username s = (Logged e, s)).
Proof.
  destruct (User_save s username) as [[u s'] | e] eqn:H.
  - left. exists u, s'. split; [ reflexivity | ].
    apply post_api_users_saved, H.
  - right. exists e. split; [ reflexivity | ].
    apply post_api_users_rejected, H.
Qed.

(** ** The logs route at its edges *)

(** X3: for an id the lookup resolves to no document, the logs route answers
    "could not find user" whatever [from], [to] and [limit] are, and the
    store is as before. *)
Theorem logs_for_unknown_user {db : Type} {store : Store db}
    (host : JSDate.Host) (s : db) (id : string) (from to limit : option string) :
  User_findById s id = Ok None ->
  get_api_users_logs host id from to limit s = (Send "could not find user", s).
Proof.
  intros H. unfold get_api_users_logs, async, bind, await_read.
  rewrite H. reflexivity.
Qed.

Lemma logs_for_unknown_user_witness :
  User_findById db_two "id9" = Ok None
  /\ get_api_users_logs JSDate.utc_host "id9" (Some "2020-01-01") None
       (Some "3") db_two
     = (Send "could not find user", db_two).
Proof.
  assert (User_findById db_two "id9" = Ok None) as H by reflexivity.
  exact (conj H (logs_for_unknown_user JSDate.utc_host db_two "id9"
                   (Some "2020-01-01") None (Some "3") H)).
Defined.

(** X4: with no [limit] in the query of an existing user, the store is
    queried with the cap NaN: the 500 of [+limit ?? 500] is not used. *)
Theorem logs_without_limit {db : Type} {store : Store db}
    (host : JSDate.Host) (s : db) (id : string) (from to : option string)
    (user : User.t) :
  User_findById s id = Ok (Some user) ->
  get_api_users_logs host id from to None s =
  match Exercise_find s (filter host id from to) (JS.Num JS.NaN) with
  | Ok exercises =>
      (Json (Reply.OfLogs
         {| Reply.logs_username := User.username user;
            Reply.count := List.length exercises;
            Reply.logs_id := User._id user;
            Reply.log := map (log_entry host) exercises |}),
       s)
  | Err e => (Rejected e, s)
  end.
Proof.
  intros H.
  rewrite (get_api_users_logs_found host s id from to None user H).
  reflexivity.
Qed.

Lemma logs_without_limit_witness :
  User_findById db_two "id0" = Ok (Some alice)
  /\ Exercise_find db_two (filter JSDate.utc_host "id0" None None)
       (JS.Num JS.NaN) = Ok [swim; run]
  /\ fst (get_api_users_logs JSDate.utc_host "id0" None None None db_two)
     = Json (Reply.OfLogs
         {| Reply.logs_username := Some "alice"; Reply.count := 2;
            Reply.logs_id := "id0";
            Reply.log := map (log_entry JSDate.utc_host) [swim; run] |}).
Proof.
  assert (User_findById db_two "id0" = Ok (Some alice)) as H by reflexivity.
  refine (conj H (conj eq_refl _)).
  rewrite (logs_without_limit JSDate.utc_host db_two "id0" None None alice H).
  reflexivity.
Defined.

(** X5: the filter never carries an empty [date] object: when it has a
    [date] key, that object has [$gte] or [$lte]. *)
Theorem filter_date_never_empty (host : JSDate.Host) (id : string)
    (from to : option string) (d : Query.dateObj) :
  Query.date (filter host id from to) = Some d ->
  Query.gte d <> None \/ Query.lte d <> None.
Proof.
  rewrite filter_cases, dateObj_cases. cbn [Query.date].
  destruct from as [[| c r] |], to as [[| c' r'] |]; cbn;
    intros H; try discriminate; injection H as <-; cbn;
    solve [ left; discriminate | right; discriminate ].
Qed.

Lemma filter_date_never_empty_witness :
  Query.date (filter JSDate.utc_host "id0" (Some EmptyString) (Some "2020-01-01"))
    = Some {| Query.gte := None;
              Query.lte := Some (JSDate.TimeValue 1577836800000) |}
  /\ (Query.gte {| Query.gte := None;
                   Query.lte := Some (JSDate.TimeValue 1577836800000) |} <> None
      \/ Query.lte {| Query.gte := None;
                      Query.lte := Some (JSDate.TimeValue 1577836800000) |}
         <> None).
Proof.
  assert (Query.date (filter JSDate.utc_host "id0" (Some EmptyString)
                        (Some "2020-01-01"))
          = Some {| Query.gte := None;
                    Query.lte := Some (JSDate.TimeValue 1577836800000) |}) as H
    by (vm_compute; reflexivity).
  exact (conj H (filter_date_never_empty JSDate.utc_host "id0"
                   (Some EmptyString) (Some "2020-01-01") _ H)).
Defined.

(** ** Dates in the responses *)

(** X7: what the exercise route answers for a saved exercise is what the
    logs route shows for it: the same description, duration and date
    string as its log entry. *)
Theorem exercise_reply_is_log_entry {db : Type} {store : Store db}
    (host : JSDate.Host) (s s' : db) (id : string)
    (description duration date : option string) (now : Z)
    (user : User.t) (exercise : Exercise.t) :
  User_findById s id = Ok (Some user) ->
  Exercise_save s (exerciseObj host user description duration date now)
    = Ok (exercise, s') ->
  exists r : Reply.exercise,
    post_api_users_exercises host id description duration date now s
      = (Json (Reply.OfExercise r), s')
    /\ Reply.description r = Reply.entry_description (log_entry host exercise)
    /\ Reply.duration r = Reply.entry_duration (log_entry host exercise)
    /\ Reply.date r = Reply.entry_date (log_entry host exercise).
Proof.
  intros Hu Hs.
  rewrite (post_api_users_exercises_found host s id description duration date
             now user Hu), Hs.
  eexists. split; [ reflexivity | ].
  refine (conj eq_refl (conj eq_refl eq_refl)).
Qed.

Lemma exercise_reply_is_log_entry_witness :
  let saved :=
    {| Exercise._id := "id1"; Exercise.userId := "id0";
       Exercise.description := Some "run"; Exercise.duration := Some (JS.of_Z 30);
       Exercise.date := JSDate.TimeValue 1577836800000 |} in
  exists r : Reply.exercise,
    fst (post_api_users_exercises JSDate.utc_host "id0" (Some "run") (Some "30")
           (Some "2020-01-01") noon_2020_01_01 db_alice)
      = Json (Reply.OfExercise r)
    /\ Reply.date r = "Wed Jan 01 2020"
    /\ Reply.date r = Reply.entry_date (log_entry JSDate.utc_host saved).
Proof.
  intros saved.
  assert (User_findById db_alice "id0" = Ok (Some alice)) as Hu by reflexivity.
  destruct (exercise_reply_is_log_entry JSDate.utc_host db_alice
              {| MemStore.users := [alice]; MemStore.exercises := [saved];
                 MemStore.next_id := 2%nat; MemStore.connected := true |}
              "id0" (Some "run") (Some "30") (Some "2020-01-01")
              noon_2020_01_01 alice saved Hu)
    as (r & Hrun & _ & _ & Hdate).
  - vm_compute. reflexivity.
  - exists r. rewrite Hrun. refine (conj eq_refl (conj _ Hdate)).
    rewrite Hdate. vm_compute. reflexivity.
Defined.



(** ** A decimal [limit] *)

Section DecimalLimit.

Let chars (d : uint) : list ascii :=
  list_ascii_of_string (NilEmpty.string_of_uint d).

Let decimal_chars : list ascii := list_ascii_of_string "0123456789".

Lemma chars_decimal (d : uint) : Forall (fun c => In c decimal_chars) (chars d).
Proof.
  unfold chars, decimal_chars.
  induction d; cbn [NilEmpty.string_of_uint list_ascii_of_string];
    constructor; try assumption; cbn; tauto.
Qed.

Lemma decimal_char_code (c : ascii) :
  In c decimal_chars -> (48 <= nat_of_ascii c <= 57)%nat.
Proof.
  unfold decimal_chars. cbn [list_ascii_of_string In].
  intros H; repeat (destruct H as [<- | H]; [ cbn; lia | ]); contradiction.
Qed.

Lemma decimal_char_not_white (c : ascii) :
  In c decimal_chars -> JS.is_white c = false.
Proof.
  unfold decimal_chars. cbn [list_ascii_of_string In].
  intros H; repeat (destruct H as [<- | H]; [ reflexivity | ]); contradiction.
Qed.

(** No white-space character starts or ends with a decimal digit. *)
Lemma white_head_decimal (c : ascii) (r : list ascii) :
  In c decimal_chars -> JS.white_head (c :: r) = None.
Proof.
  intros H. pose proof (decimal_char_code c H) as Hc.
  unfold JS.white_head. rewrite (decimal_char_not_white c H).
  destruct r as [| b [| a r]]; try reflexivity;
    unfold JS.is_white2, JS.is_white3; cbv zeta;
    repeat match goal with
           | |- context [(nat_of_ascii c =? ?n)%nat] =>
               replace (nat_of_ascii c =? n)%nat with false
                 by (symmetry; apply Nat.eqb_neq; lia)
           end;
    reflexivity.
Qed.

Lemma white_last_decimal (c : ascii) (r : list ascii) :
  In c decimal_chars -> JS.white_last (c :: r) = None.
Proof.
  intros H. pose proof (decimal_char_code c H) as Hc.
  unfold JS.white_last. rewrite (decimal_char_not_white c H).
  destruct r as [| b [| a r]]; try reflexivity;
    unfold JS.is_white2, JS.is_white3; cbv zeta;
    repeat match goal with
           | |- context [(nat_of_ascii c =? ?n)%nat] =>
               replace (nat_of_ascii c =? n)%nat with false
                 by (symmetry; apply Nat.eqb_neq; lia)
           end;
    replace (128 <=? nat_of_ascii c)%nat with false
      by (symmetry; apply Nat.leb_gt; lia);
    rewrite ?andb_false_r; cbn [andb orb]; rewrite ?andb_false_r; reflexivity.
Qed.

Lemma drop_white_none (step : list ascii -> option (list ascii)) (fuel : nat)
    (l : list ascii) :
  step l = None -> JS.drop_white step fuel l = l.
Proof. intros H. destruct fuel; cbn; [ | rewrite H ]; reflexivity. Qed.

Lemma trim_decimal (l : list ascii) :
  l <> [] -> Forall (fun c => In c decimal_chars) l -> JS.trim l = l.
Proof.
  intros Hne H. unfold JS.trim.
  assert (JS.drop_white JS.white_head (List.length l) l = l) as ->.
  { apply drop_white_none. destruct H as [| c r Hc _]; [ contradiction | ].
    apply white_head_decimal, Hc. }
  rewrite drop_white_none; [ apply rev_involutive | ].
  apply Forall_rev in H.
  destruct (List.rev l) as [| c r] eqn:E.
  - apply (f_equal (@List.rev ascii)) in E. rewrite rev_involutive in E.
    contradiction.
  - inversion H as [| ? ? Hc _]; subst. apply white_last_decimal, Hc.
Qed.

(** Reading the digits of [d] after an accumulator that is not zero. *)
Lemma digits_from_uint_acc (d : uint) : forall (acc : positive) (len : nat),
  JS.digits_from 10 (Zpos acc) len (chars d)
  = (Zpos (Pos.of_uint_acc d acc), (len + List.length (chars d))%nat, []).
Proof.
  unfold chars.
  induction d; intros acc len;
    cbn [NilEmpty.string_of_uint list_ascii_of_string JS.digits_from
         Pos.of_uint_acc List.length];
    try (rewrite Nat.add_0_r; reflexivity);
    match goal with
    | |- context [JS.digit_value 10 ?c] =>
        let v := eval vm_compute in (JS.digit_value 10 c) in
        change (JS.digit_value 10 c) with v; cbv iota
    end;
    match goal with
    | |- JS.digits_from 10 ?a _ _ = (Zpos (Pos.of_uint_acc _ ?p), _, _) =>
        replace a with (Zpos p) by lia
    end;
    rewrite IHd, Nat.add_succ_r; reflexivity.
Qed.

(** Reading the digits of [d] from the start. *)
Lemma digits_from_uint (d : uint) : forall len : nat,
  JS.digits_from 10 0 len (chars d)
  = (Z.of_N (Pos.of_uint d), (len + List.length (chars d))%nat, []).
Proof.
  induction d; intros len;
    try (pose proof (digits_from_uint_acc d) as Hacc);
    unfold chars in *;
    cbn [NilEmpty.string_of_uint list_ascii_of_string JS.digits_from
         Pos.of_uint List.length];
    try (rewrite Nat.add_0_r; reflexivity);
    match goal with
    | |- context [JS.digit_value 10 ?c] =>
        let v := eval vm_compute in (JS.digit_value 10 c) in
        change (JS.digit_value 10 c) with v; cbv iota
    end;
    rewrite Nat.add_succ_r.
  - change (0 * 10 + 0) with 0. apply IHd.
  - change (0 * 10 + 1) with (Zpos 1). apply Hacc.
  - change (0 * 10 + 2) with (Zpos 2). apply Hacc.
  - change (0 * 10 + 3) with (Zpos 3). apply Hacc.
  - change (0 * 10 + 4) with (Zpos 4). apply Hacc.
  - change (0 * 10 + 5) with (Zpos 5). apply Hacc.
  - change (0 * 10 + 6) with (Zpos 6). apply Hacc.
  - change (0 * 10 + 7) with (Zpos 7). apply Hacc.
  - change (0 * 10 + 8) with (Zpos 8). apply Hacc.
  - change (0 * 10 + 9) with (Zpos 9). apply Hacc.
Qed.

Lemma Qred_integer (v : Z) : Qred (v # 1) = v # 1.
Proof.
  unfold Qred.
  pose proof (Z.ggcd_gcd v 1) as Hg.
  pose proof (Z.ggcd_correct_divisors v 1) as Hd.
  destruct (Z.ggcd v 1) as [g [a b]]. cbn [fst snd] in *.
  rewrite Z.gcd_1_r in Hg. subst g. destruct Hd as [Ha Hb].
  rewrite Z.mul_1_l in Ha, Hb. subst a b. reflexivity.
Qed.

Lemma Qred_scaled_integer (v c : Z) :
  0 <= c -> Qred (v * 2 ^ c # Z.to_pos (2 ^ c)) = v # 1.
Proof.
  intros Hc. rewrite <- (Qred_integer v). apply Qred_complete.
  unfold Qeq. cbn [Qnum Qden].
  rewrite Z2Pos.id by (apply Z.pow_pos_nonneg; lia). lia.
Qed.

(** An integer below 2^53 in absolute value is a binary64 value: rounding
    leaves it as it is. *)
Lemma round_binary64_integer (n : Z) :
  0 <= n < 2 ^ 53 -> JS.round_binary64 (n # 1) = JS.of_Z n.
Proof.
  intros [Hlo Hhi].
  destruct (Z.eq_dec n 0) as [-> | Hne]; [ reflexivity | ].
  assert (0 < n) as Hpos by lia.
  pose proof (Z.log2_spec n Hpos) as [Hk1 Hk2].
  pose proof (Z.log2_nonneg n) as Hk0.
  assert (Z.log2 n < 53) as Hk53 by (apply Z.log2_lt_pow2; assumption).
  unfold JS.round_binary64. cbn [Qnum Qden]. cbv zeta.
  rewrite (Z.abs_eq n) by lia.
  change (Z.log2 1) with 0. rewrite Z.sub_0_r, Z.mul_1_l.
  replace (n =? 0) with false by (symmetry; apply Z.eqb_neq; lia).
  replace (0 <=? Z.log2 n) with true by (symmetry; apply Z.leb_le; lia).
  replace (n <? 2 ^ Z.log2 n) with false by (symmetry; apply Z.ltb_ge; lia).
  replace (n <? 0) with false by (symmetry; apply Z.ltb_ge; lia).
  rewrite (Z.max_l (Z.log2 n - 52) (-1074)) by lia.
  destruct (Z.leb_spec 0 (Z.log2 n - 52)) as [Hge | Hlt].
  - assert (Z.log2 n = 52) as E by lia. rewrite E.
    change (2 ^ (52 - 52)) with 1. rewrite Z.mul_1_l, Z.mul_1_r.
    rewrite Z.mod_1_r, Z.div_1_r. cbn [Z.mul Z.ltb Z.compare].
    rewrite E. cbn [Z.add Z.leb Z.compare Pos.compare Pos.compare_cont Pos.add].
    unfold JS.of_Z, inject_Z. rewrite Qred_integer. reflexivity.
  - rewrite Z.mod_1_r, Z.div_1_r. cbn [Z.mul Z.ltb Z.compare].
    replace (- (Z.log2 n - 52)) with (52 - Z.log2 n) by lia.
    rewrite Z.log2_mul_pow2 by lia.
    replace (1024 <=? 52 - Z.log2 n + Z.log2 n + (Z.log2 n - 52)) with false
      by (symmetry; apply Z.leb_gt; lia).
    rewrite Qred_scaled_integer by lia. reflexivity.
Qed.

(** The decimal digits of a number below 2^53, with nothing around them,
    coerce to that number. *)
Lemma StringToNumber_uint (d : uint) :
  d <> Nil -> Z.of_N (Pos.of_uint d) < 2 ^ 53 ->
  JS.StringToNumber (NilEmpty.string_of_uint d) = JS.of_Z (Z.of_N (Pos.of_uint d)).
Proof.
  intros Hd Hsafe. unfold JS.StringToNumber. fold (chars d).
  pose proof (chars_decimal d) as Hdec.
  assert (exists c r, chars d = c :: r) as (c & r & E)
    by (unfold chars; destruct d; try contradiction; cbn; eauto).
  rewrite trim_decimal by (try exact Hdec; rewrite E; discriminate).
  pose proof (digits_from_uint d O) as Hdig. cbn [Nat.add] in Hdig.
  assert (JS.str_decimal (chars d) = JS.of_Z (Z.of_N (Pos.of_uint d))) as Hstr.
  { assert (JS.str_decimal (chars d) = JS.unsigned_decimal false (chars d)) as ->.
    { rewrite E in Hdec |- *. inversion Hdec as [| ? ? Hc _]; subst.
      unfold decimal_chars in Hc. cbn [list_ascii_of_string In] in Hc.
      repeat (destruct Hc as [<- | Hc]; [ reflexivity | ]). contradiction. }
    unfold JS.unsigned_decimal, JS.digits. rewrite Hdig, E.
    cbn [List.length Nat.add JS.exponent_part].
    change (JS.pow10 (0 - Z.of_nat 0)) with (1 # 1).
    unfold inject_Z, Qmult. cbn [Qnum Qden Pos.mul].
    rewrite Z.mul_1_r. apply round_binary64_integer.
    split; [ apply N2Z.is_nonneg | exact Hsafe ]. }
  rewrite E in Hdec |- *. rewrite E in Hstr.
  inversion Hdec as [| ? ? Hc Hr]; subst.
  unfold decimal_chars in Hc. cbn [list_ascii_of_string In] in Hc.
  destruct r as [| p r].
  - repeat (destruct Hc as [<- | Hc]; [ exact Hstr | ]). contradiction.
  - inversion Hr as [| ? ? Hp _]; subst.
    unfold decimal_chars in Hp. cbn [list_ascii_of_string In] in Hp.
    repeat (destruct Hc as [<- | Hc]; [ try exact Hstr | ]); try contradiction.
    repeat (destruct Hp as [<- | Hp]; [ exact Hstr | ]). contradiction.
Qed.

End DecimalLimit.

Lemma StringToNumber_decimal (n : N) :
  (n < 2 ^ 53)%N ->
  JS.StringToNumber (NilZero.string_of_uint (N.to_uint n)) = JS.of_Z (Z.of_N n).
Proof.
  intros Hsafe.
  assert (N.to_uint n <> Nil) as Hnil.
  { destruct n as [| p]; [ discriminate | apply DecimalPos.Unsigned.to_uint_nonnil ]. }
  assert (NilZero.string_of_uint (N.to_uint n)
          = NilEmpty.string_of_uint (N.to_uint n)) as ->
    by (destruct (N.to_uint n); [ contradiction | reflexivity .. ]).
  assert (Pos.of_uint (N.to_uint n) = n) as Hn
    by (change (Pos.of_uint (N.to_uint n)) with (N.of_uint (N.to_uint n));
        apply DecimalN.Unsigned.of_to).
  rewrite (StringToNumber_uint (N.to_uint n) Hnil); rewrite Hn; [ reflexivity | ].
  change (2 ^ 53) with (Z.of_N (2 ^ 53)). apply N2Z.inj_lt, Hsafe.
Qed.

(** The in-memory store returns at most [k] documents for a limit that is
    the positive integer [k]. *)
Lemma find_exercises_at_most (s : MemStore.db) (f : Query.filter) (k : Z)
    (l : list Exercise.t) :
  MemStore.find_exercises s f (JS.Num (JS.of_Z k)) = Ok l ->
  0 < k -> (List.length l <= Z.to_nat k)%nat.
Proof.
  unfold MemStore.find_exercises, MemStore.limit, JS.of_Z, inject_Z.
  cbn [Qnum Qden]. rewrite Z.quot_1_r.
  intros H Hk. destruct (MemStore.connected s); [ | discriminate ].
  rewrite Z.abs_eq in H by lia.
  destruct (Z.eqb_spec k 0) as [E | _]; [ lia | ].
  injection H as <-. apply firstn_le_length.
Qed.

(** X9: a [limit] written as the decimal digits of a number [n] below 2^53
    (the integers a Number holds exactly) gives the store the number [n]
    as the cap of the query. *)
Theorem decimal_limit_is_its_value {db : Type} {store : Store db}
    (host : JSDate.Host) (s : db) (id : string) (from to : option string)
    (n : N) (user : User.t) :
  (n < 2 ^ 53)%N ->
  User_findById s id = Ok (Some user) ->
  limit_arg (Some (NilZero.string_of_uint (N.to_uint n)))
    = JS.Num (JS.of_Z (Z.of_N n))
  /\ get_api_users_logs host id from to
       (Some (NilZero.string_of_uint (N.to_uint n))) s =
     match Exercise_find s (filter host id from to)
             (JS.Num (JS.of_Z (Z.of_N n))) with
     | Ok exercises =>
         (Json (Reply.OfLogs
            {| Reply.logs_username := User.username user;
               Reply.count := List.length exercises;
               Reply.logs_id := User._id user;
               Reply.log := map (log_entry host) exercises |}),
          s)
     | Err e => (Rejected e, s)
     end.
Proof.
  intros Hsafe H.
  assert (limit_arg (Some (NilZero.string_of_uint (N.to_uint n)))
          = JS.Num (JS.of_Z (Z.of_N n))) as Hcap.
  { unfold limit_arg, JS.unary_plus, JS.param, JS.ToNumber, JS.nullish.
    rewrite (StringToNumber_decimal n Hsafe). reflexivity. }
  split; [ exact Hcap | ].
  rewrite (get_api_users_logs_found host s id from to _ user H), Hcap.
  reflexivity.
Qed.

Lemma decimal_limit_is_its_value_witness :
  NilZero.string_of_uint (N.to_uint 25) = "25"
  /\ (25 < 2 ^ 53)%N
  /\ User_findById db_two "id0" = Ok (Some alice)
  /\ limit_arg (Some "25") = JS.Num (JS.of_Z 25).
Proof.
  assert (User_findById db_two "id0" = Ok (Some alice)) as H by reflexivity.
  assert (25 < 2 ^ 53)%N as Hsafe by reflexivity.
  refine (conj eq_refl (conj Hsafe (conj H _))).
  exact (proj1 (decimal_limit_is_its_value JSDate.utc_host db_two "id0" None
                  None 25 alice Hsafe H)).
Defined.

(** The bound is needed: the digits of 2^53 + 1 give the store 2^53. *)
Example limit_beyond_2_53 :
  limit_arg (Some (NilZero.string_of_uint (N.to_uint (2 ^ 53 + 1))))
  = JS.Num (JS.of_Z (2 ^ 53)).
Proof. vm_compute. reflexivity. Qed.

(** X10: when the store returns no more documents than a positive integer
    cap allows, a logs query with [limit] the decimal digits of [n], for
    [0 < n < 2^53], that the store answers has at most [n] entries, and a
    [count] of at most [n]. *)
Theorem limit_bounds_count {db : Type} {store : Store db}
    (host : JSDate.Host) (s : db) (id : string) (from to : option string)
    (n : N) (user : User.t) (exercises : list Exercise.t) :
  (forall f k l, Exercise_find s f (JS.Num (JS.of_Z k)) = Ok l ->
                 0 < k -> (List.length l <= Z.to_nat k)%nat) ->
  (0 < n < 2 ^ 53)%N ->
  User_findById s id = Ok (Some user) ->
  Exercise_find s (filter host id from to) (JS.Num (JS.of_Z (Z.of_N n)))
    = Ok exercises ->
  exists summary : Reply.logs,
    get_api_users_logs host id from to
      (Some (NilZero.string_of_uint (N.to_uint n))) s
    = (Json (Reply.OfLogs summary), s)
    /\ (Reply.count summary <= N.to_nat n)%nat
    /\ (List.length (Reply.log summary) <= N.to_nat n)%nat.
Proof.
  intros Hlaw [Hn Hsafe] Hu Hq.
  assert (limit_arg (Some (NilZero.string_of_uint (N.to_uint n)))
          = JS.Num (JS.of_Z (Z.of_N n))) as Hcap.
  { unfold limit_arg, JS.unary_plus, JS.param, JS.ToNumber, JS.nullish.
    rewrite (StringToNumber_decimal n Hsafe). reflexivity. }
  rewrite (get_api_users_logs_found host s id from to _ user Hu), Hcap, Hq.
  eexists. split; [ reflexivity | ].
  cbn [Reply.count Reply.log]. rewrite length_map.
  pose proof (Hlaw _ _ _ Hq ltac:(lia)) as Hle.
  replace (Z.to_nat (Z.of_N n)) with (N.to_nat n) in Hle by lia.
  split; exact Hle.
Qed.

Lemma limit_bounds_count_witness :
  (0 < 1 < 2 ^ 53)%N
  /\ exists summary : Reply.logs,
       get_api_users_logs JSDate.utc_host "id0" None None (Some "1") db_two
       = (Json (Reply.OfLogs summary), db_two)
       /\ (Reply.count summary <= 1)%nat
       /\ (List.length (Reply.log summary) <= 1)%nat.
Proof.
  assert (User_findById db_two "id0" = Ok (Some alice)) as Hu by reflexivity.
  assert (Exercise_find db_two (filter JSDate.utc_host "id0" None None)
            (JS.Num (JS.of_Z (Z.of_N 1))) = Ok [swim]) as Hq by reflexivity.
  assert (0 < 1 < 2 ^ 53)%N as Hn by (split; reflexivity).
  exact (conj Hn (limit_bounds_count JSDate.utc_host db_two "id0" None None 1
                    alice [swim] (find_exercises_at_most db_two) Hn Hu Hq)).
Defined.

(** ** Every case of the users route *)

(** X11: the users route answers with the JSON of exactly the list the
    store resolves to, in the store's order, and lets a rejection leave the
    handler; the text "no users" is the response in no case, since the
    list it guards is truthy even when empty. *)
Theorem users_route_cases {db : Type} {store : Store db} (s : db) :
  ((exists users, User_find s = Ok users
      /\ get_api_users s = (Json (Reply.OfUsers users), s))
   \/ (exists e, User_find s = Err e /\ get_api_users s = (Rejected e, s)))
  /\ fst (get_api_users s) <> Send "no users".
Proof.
  destruct (User_find s) as [users | e] eqn:H.
  - rewrite (get_api_users_resolved s users H).
    split; [ left; exists users; auto | discriminate ].
  - rewrite (get_api_users_rejected s e H).
    split; [ right; exists e; auto | discriminate ].
Qed.
